(** * Pandoc.py: a shallow embedding of the Sublime Text Pandoc plugin

    The development follows the layout of [Pandoc.py]:

    - [Re]      the two patterns that [Args] hands to [re.search];
    - [Args]    the class [Args(list)] with [get] and [remove];
    - [Prompt]  [PromptPandocCommand]: [transformations] and [transform];
    - [Pandoc]  [PandocCommand.run], with the editor, the settings and the
                converter process taken as parameters of a section.

    Python [str] values are [string]s, Python [int]s are [Z], [None] is the
    [None] of [option], and a [dict] is an association list listed in the
    order in which the dictionary is iterated; a dictionary built by the
    plugin keeps the order in which its keys were inserted, as Python's
    dictionaries do. *)

From Stdlib Require Import List Bool ZArith Lia String Ascii.
From Stdlib Require Import Sorting.Sorted Sorting.Permutation.
Import ListNotations.

Local Open Scope string_scope.
Local Open Scope list_scope.

(* ================================================================= *)
(** ** Strings *)

Module Str.

(** [s.startswith(p)], returning what follows the prefix. *)
Fixpoint strip_prefix (p s : string) : option string :=
  match p with
  | EmptyString => Some s
  | String a p' =>
      match s with
      | String b s' => if Ascii.eqb a b then strip_prefix p' s' else None
      | EmptyString => None
      end
  end.

(** The line feed, the only character that [.] and [$] treat specially. *)
Definition newline : ascii := "010"%char.

Definition LF : string := String newline EmptyString.

Fixpoint has_newline (s : string) : bool :=
  match s with
  | EmptyString => false
  | String a s' => Ascii.eqb a newline || has_newline s'
  end.

(** The longest prefix of [s] without a line feed, and the rest of [s]. *)
Fixpoint span_line (s : string) : string * string :=
  match s with
  | EmptyString => (EmptyString, EmptyString)
  | String a s' =>
      if Ascii.eqb a newline then (EmptyString, s)
      else let (w, r) := span_line s' in (String a w, r)
  end.

(** [sep.join(l)] *)
Fixpoint join (sep : string) (l : list string) : string :=
  match l with
  | [] => EmptyString
  | [x] => x
  | x :: rest => x ++ sep ++ join sep rest
  end.

(** [x in l] for a list of strings. *)
Definition mem (x : string) (l : list string) : bool :=
  existsb (String.eqb x) l.

End Str.

(* ================================================================= *)
(** ** The patterns of [Args]

    [Args.get] and [Args.remove] build two patterns by splicing the
    spellings into a group,

      [re.search('^-(' + '|'.join(short) + ')$', arg)]
      [re.search('^--(' + '|'.join(long) + ')=(.+)$', arg)]

    The spellings are spliced unescaped; the embedding covers spellings made
    of characters that stand for themselves in a pattern ([plain] below), as
    are [t], [w], [to], [write], [o] and [output], the only ones the plugin
    passes.  For those the group is an alternation of literals, tried from
    left to right.  A spelling with a metacharacter makes another pattern,
    or one that [re] refuses to compile; what is stated of [get] and
    [remove] in terms of the spellings themselves is stated for plain
    spellings.

    Without [re.MULTILINE], [^] matches at the start of the token only and
    [$] matches at its end or just before a line feed that ends it; [.]
    matches every character but the line feed. *)

Module Re.
Import Str.

(** The characters that do not stand for themselves in a pattern. *)
Definition metacharacters : string := ".^$*+?{}[]\|()".

Fixpoint occurs (c : ascii) (s : string) : bool :=
  match s with
  | EmptyString => false
  | String c' s' => Ascii.eqb c c' || occurs c s'
  end.

(** A spelling that the pattern reads as the literal string it is: none of
    its characters is a metacharacter.  The definitions below give what
    [re.search] does for such spellings; for others the spliced pattern is
    another pattern, or none at all. *)
Fixpoint plain (spelling : string) : bool :=
  match spelling with
  | EmptyString => true
  | String c rest => negb (occurs c metacharacters) && plain rest
  end.

(** The alternatives of the group [(' + '|'.join(spellings) + ')]: joining
    the empty list gives the empty pattern, whose single alternative is the
    empty string. *)
Definition alternatives (spellings : list string) : list string :=
  match spellings with
  | [] => [EmptyString]
  | _ => spellings
  end.

(** [$] at the position where [rest] is what remains of the token. *)
Definition at_end (rest : string) : bool :=
  String.eqb rest EmptyString || String.eqb rest LF.

(** [(.+)$] on what follows the [=]: the greedy [.+] takes the longest run
    without a line feed; giving characters back cannot help [$], which needs
    the end of the token or its final line feed.  The result is group 2. *)
Definition dot_plus_end (v : string) : option string :=
  let (w, r) := span_line v in
  if negb (String.eqb w EmptyString) && at_end r then Some w else None.

(** The first alternative, from the left, with which [k] succeeds. *)
Fixpoint first_alternative {A : Type} (k : string -> option A)
    (alts : list string) : option A :=
  match alts with
  | [] => None
  | alt :: rest =>
      match k alt with
      | Some r => Some r
      | None => first_alternative k rest
      end
  end.

(** [re.search('^-(' + '|'.join(short) + ')$', arg)] for plain spellings,
    as a truth value. *)
Definition search_short (short : list string) (arg : string) : bool :=
  match strip_prefix "-" arg with
  | None => false
  | Some r =>
      match first_alternative
              (fun alt => match strip_prefix alt r with
                          | Some rest => if at_end rest then Some tt else None
                          | None => None
                          end)
              (alternatives short) with
      | Some _ => true
      | None => false
      end
  end.

(** [re.search('^--(' + '|'.join(long) + ')=(.+)$', arg)] for plain
    spellings: [None] when there is no match, [match.group(2)] otherwise.
    A plain spelling opens no group, so group 2 is the [(.+)]. *)
Definition search_long (long : list string) (arg : string) : option string :=
  match strip_prefix "--" arg with
  | None => None
  | Some r =>
      first_alternative
        (fun alt => match strip_prefix alt r with
                    | Some rest =>
                        match strip_prefix "=" rest with
                        | Some v => dot_plus_end v
                        | None => None
                        end
                    | None => None
                    end)
        (alternatives long)
  end.

End Re.

(* ================================================================= *)
(** ** class Args(list) *)

Module Args.
Import Str.

(** An argument vector: the tokens of the list, in order. *)
Definition t := list string.

Section Spellings.

(** [short] and [long] default to [None], "do not match this style". *)
Variables short long : option (list string).

(** [Args.get]: the loop [for arg in self], with the local [value] ([None]
    or [True]) as a boolean.  Falling out of the loop returns [None]. *)
Fixpoint get_loop (value : bool) (self : t) : option string :=
  match self with
  | [] => None
  | arg :: rest =>
      let long_check :=
        match long with
        | Some lg =>
            match Re.search_long lg arg with
            | Some group2 => Some group2
            | None => get_loop value rest
            end
        | None => get_loop value rest
        end in
      match short with
      | Some sh =>
          if value then Some arg
          else if Re.search_short sh arg then get_loop true rest
          else long_check
      | None => long_check
      end
  end.

Definition get (self : t) : option string := get_loop false self.

(** [Args.remove]: the same loop; the result lists what [ret.append]
    receives, in order. *)
Fixpoint remove_loop (values : option (list string)) (value : bool)
    (self : t) : t :=
  match self with
  | [] => []
  | arg :: rest =>
      let long_check :=
        match long with
        | Some lg =>
            match Re.search_long lg arg with
            | Some _ => remove_loop values value rest
            | None => arg :: remove_loop values value rest
            end
        | None => arg :: remove_loop values value rest
        end in
      match short with
      | Some sh =>
          if value then
            match values with
            | Some vs =>
                if negb (mem arg vs) then arg :: remove_loop values false rest
                else remove_loop values false rest
            | None => remove_loop values false rest
            end
          else if Re.search_short sh arg then remove_loop values true rest
          else long_check
      | None => long_check
      end
  end.

Definition remove (values : option (list string)) (self : t) : t :=
  remove_loop values false self.

End Spellings.

End Args.

(* ================================================================= *)
(** ** [Args] objects on the heap

    [remove] allocates [ret = Args([])], walks [self] with a list iterator
    and appends to [ret].  Here the list objects live in a heap, addressed by
    position, so that [self] and [ret] are two objects of one store. *)

Module Objects.
Import Str.

Definition heap := list Args.t.

(** [h[addr].append(arg)] *)
Definition append (h : heap) (addr : nat) (arg : string) : heap :=
  match nth_error h addr with
  | Some v => firstn addr h ++ (v ++ [arg]) :: skipn (S addr) h
  | None => h
  end.

Section Spellings.

Variables short long values : option (list string).

(** The body of the loop of [remove]: the heap and the local [value] after
    one [arg]. *)
Definition remove_body (h : heap) (ret : nat) (value : bool) (arg : string)
    : heap * bool :=
  let long_check :=
    match long with
    | Some lg =>
        match Re.search_long lg arg with
        | Some _ => (h, value)
        | None => (append h ret arg, value)
        end
    | None => (append h ret arg, value)
    end in
  match short with
  | Some sh =>
      if value then
        match values with
        | Some vs =>
            if negb (mem arg vs) then (append h ret arg, false)
            else (h, false)
        | None => (h, false)
        end
      else if Re.search_short sh arg then (h, true)
      else long_check
  | None => long_check
  end.

(** [for arg in self]: the iterator holds the index [i] and reads the live
    object at each step; it stops when [i] is past the end.  [None] is a
    loop that has not ended within [fuel] steps. *)
Fixpoint remove_iter (fuel : nat) (h : heap) (self ret i : nat)
    (value : bool) : option heap :=
  match fuel with
  | O => None
  | S fuel' =>
      match nth_error h self with
      | None => Some h
      | Some v =>
          match nth_error v i with
          | None => Some h
          | Some arg =>
              let (h', value') := remove_body h ret value arg in
              remove_iter fuel' h' self ret (S i) value'
          end
      end
  end.

(** [self.remove(short, long, values)] for the object at [self]: the heap
    at return, and the address of the object returned. *)
Definition remove_method (fuel : nat) (h : heap) (self : nat)
    : option (heap * nat) :=
  let ret := List.length h in
  match remove_iter fuel (h ++ [[]]) self ret 0 false with
  | Some h' => Some (h', ret)
  | None => None
  end.

End Spellings.

End Objects.

(* ================================================================= *)
(** ** The argument vector in the words of the specification *)

Module ArgsSpec.
Import Str.

(** The token is exactly [-k] for one of the spellings [k]. *)
Definition is_short (spellings : list string) (arg : string) : bool :=
  existsb (fun k => String.eqb arg ("-" ++ k)) spellings.

(** The token is [--key=value] for one of the spellings [key] and a
    non-empty [value]: that value. *)
Definition long_value (spellings : list string) (arg : string)
    : option string :=
  Re.first_alternative
    (fun key => match strip_prefix ("--" ++ key ++ "=") arg with
                | Some v => if String.eqb v EmptyString then None else Some v
                | None => None
                end)
    spellings.

Section Spellings.

Variables short long : option (list string).

Definition short_flag (arg : string) : bool :=
  match short with
  | Some sh => is_short sh arg
  | None => false
  end.

Definition long_flag (arg : string) : option string :=
  match long with
  | Some lg => long_value lg arg
  | None => None
  end.

(** [get]: the first flag met decides; a short flag gives the token after
    it, whatever that token looks like, a long flag gives its value. *)
Fixpoint get (args : list string) : option string :=
  match args with
  | [] => None
  | arg :: rest =>
      if short_flag arg then
        match rest with
        | v :: _ => Some v
        | [] => None
        end
      else
        match long_flag arg with
        | Some v => Some v
        | None => get rest
        end
  end.

(** [remove]: a short flag is dropped and takes the token after it as its
    value, which is kept exactly when a filter is given and the value is not
    in it; a long flag is dropped; any other token is kept. *)
Fixpoint remove (values : option (list string)) (args : list string)
    : list string :=
  match args with
  | [] => []
  | arg :: rest =>
      if short_flag arg then
        match rest with
        | v :: rest' =>
            match values with
            | Some vs =>
                if mem v vs then remove values rest'
                else v :: remove values rest'
            | None => remove values rest'
            end
        | [] => []
        end
      else
        match long_flag arg with
        | Some _ => remove values rest
        | None => arg :: remove values rest
        end
  end.

End Spellings.

(** No token holds a line feed. *)
Definition newline_free (args : list string) : Prop :=
  Forall (fun tok => has_newline tok = false) args.

(** A list of spellings, when given, is not empty. *)
Definition spelled (spellings : option (list string)) : Prop :=
  spellings <> Some [].

(** The spellings, when given, are all plain. *)
Definition plain_spellings (spellings : option (list string)) : Prop :=
  match spellings with
  | Some l => Forall (fun spelling => Re.plain spelling = true) l
  | None => True
  end.

(** The tokens that the scan of [Args.get] and [Args.remove] takes as the
    value of a short flag: each token that follows a token matched as a
    short flag, itself not taken as a value. *)
Fixpoint value_tokens (short : option (list string)) (args : list string)
    : list string :=
  match args with
  | [] => []
  | arg :: rest =>
      match short with
      | Some sh =>
          if Re.search_short sh arg then
            match rest with
            | v :: rest' => v :: value_tokens short rest'
            | [] => []
            end
          else value_tokens short rest
      | None => []
      end
  end.

(** The token is matched by one of the two patterns. *)
Definition is_flag (short long : option (list string)) (arg : string)
    : bool :=
  match short with
  | Some sh => Re.search_short sh arg
  | None => false
  end
  || match long with
     | Some lg => match Re.search_long lg arg with
                  | Some _ => true
                  | None => false
                  end
     | None => false
     end.

(** No token of the vector is matched by a pattern. *)
Definition no_flags (short long : option (list string))
    (args : list string) : Prop :=
  Forall (fun tok => is_flag short long tok = false) args.

(** The tokens in value position when the scan stands before [args] with
    the local [value]. *)
Definition pending_values (short : option (list string)) (value : bool)
    (args : list string) : list string :=
  if value then
    match args with
    | v :: rest => v :: value_tokens short rest
    | [] => []
    end
  else value_tokens short args.

End ArgsSpec.

(* ================================================================= *)
(** ** Settings *)

Module Settings.

(** One entry of the [transformations] setting.  [scope] maps a selector to
    an input format; its entries are listed in iteration order. *)
Record Transformation := {
  scope : list (string * string);
  pandoc_arguments : list string;
  new_buffer : bool;
  syntax_file : string
}.

(** [d[k]] and [k in d] on a dictionary: the last binding made for [k]. *)
Fixpoint dict_get {V : Type} (k : string) (d : list (string * V)) : option V :=
  match d with
  | [] => None
  | (k', v) :: rest => if String.eqb k k' then Some v else dict_get k rest
  end.

(** [d[k] = v]: an existing key keeps its place, a new key goes last. *)
Fixpoint dict_set {V : Type} (k : string) (v : V) (d : list (string * V))
    : list (string * V) :=
  match d with
  | [] => [(k, v)]
  | (k', v') :: rest =>
      if String.eqb k k' then (k', v) :: rest
      else (k', v') :: dict_set k v rest
  end.

(** [l[i]] on a list: a negative index counts from the end; [None] stands
    for [IndexError]. *)
Definition list_index {A : Type} (l : list A) (i : Z) : option A :=
  let n := Z.of_nat (List.length l) in
  if (0 <=? i)%Z then nth_error l (Z.to_nat i)
  else if (0 <=? n + i)%Z then nth_error l (Z.to_nat (n + i))
  else None.

End Settings.

(* ================================================================= *)
(** ** class PromptPandocCommand *)

Module Prompt.
Import Settings.

(** The scores that [if not score: continue] lets through. *)
Definition nonzero (scores : list Z) : list Z :=
  filter (fun s => negb (s =? 0)%Z) scores.

Section View.

(** [view.score_selector(0, scope)] of the active view. *)
Variable score_selector : string -> Z.

(** The inner loop [for scope in settings['scope'].keys()]. *)
Fixpoint rank_scopes (label : string) (scopes : list string)
    (ranked : list (string * Z)) : list (string * Z) :=
  match scopes with
  | [] => ranked
  | scope :: rest =>
      let score := score_selector scope in
      if (score =? 0)%Z then rank_scopes label rest ranked
      else
        match dict_get label ranked with
        | None => rank_scopes label rest (dict_set label score ranked)
        | Some best =>
            if (best <? score)%Z
            then rank_scopes label rest (dict_set label score ranked)
            else rank_scopes label rest ranked
        end
  end.

(** The outer loop [for label, settings in _s('transformations').items()]. *)
Fixpoint rank_items (items : list (string * Transformation))
    (ranked : list (string * Z)) : list (string * Z) :=
  match items with
  | [] => ranked
  | (label, settings) :: rest =>
      rank_items rest (rank_scopes label (map fst (scope settings)) ranked)
  end.

(** [sorted(items, key=lambda t: t[1])]: Python's sort is stable, and a
    stable sort has one possible result; insertion from the right, before
    the first element whose key is not smaller, computes it. *)
Fixpoint insert_by_score (x : string * Z) (l : list (string * Z))
    : list (string * Z) :=
  match l with
  | [] => [x]
  | y :: l' =>
      if (snd x <=? snd y)%Z then x :: y :: l'
      else y :: insert_by_score x l'
  end.

Fixpoint sorted (l : list (string * Z)) : list (string * Z) :=
  match l with
  | [] => []
  | x :: l' => insert_by_score x (sorted l')
  end.

(** [OrderedDict(pairs)] *)
Definition OrderedDict (pairs : list (string * Z)) : list (string * Z) :=
  fold_left (fun d kv => dict_set (fst kv) (snd kv) d) pairs [].

(** What [transformations] does: either [sublime.error_message(...)]
    followed by a bare [return], or the list stored in [self.options] and
    returned. *)
Inductive ranking :=
| NoMatchError (message : string)
| Options (names : list string).

(** [PromptPandocCommand.transformations]; [syntax] is
    [view.settings().get('syntax')] and [items] is
    [_s('transformations').items()]. *)
Definition transformations (syntax : string)
    (items : list (string * Transformation)) : ranking :=
  let ranked := rank_items items [] in
  if Nat.eqb (List.length ranked) 0 then
    NoMatchError ("No transformations configured for the syntax " ++ syntax)
  else
    Options (rev (map fst (OrderedDict (sorted ranked)))).

(** The scores of a transformation's selectors that are not zero. *)
Definition nonzero_scores (settings : Transformation) : list Z :=
  nonzero (map score_selector (map fst (scope settings))).

(** The ranker in the words of the specification: the best score of a
    transformation is the maximum of its selectors' non-zero scores. *)
Definition best_score (settings : Transformation) : option Z :=
  match nonzero_scores settings with
  | [] => None
  | s :: rest => Some (fold_left Z.max rest s)
  end.

(** The transformations that retain a score, in mapping order. *)
Definition ranked_spec (items : list (string * Transformation))
    : list (string * Z) :=
  flat_map (fun item => match best_score (snd item) with
                        | Some best => [(fst item, best)]
                        | None => []
                        end) items.

End View.

(** The entries of a ranking that carry the score [v]. *)
Definition by_score (v : Z) (p : string * Z) : bool := (snd p =? v)%Z.

(** What [transform] does. *)
Inductive transformed :=
| Cancelled                              (* the bare [return] *)
| RunCommand (transformation : Transformation)
                                         (* [run_command('pandoc', ...)] *)
| IndexError                             (* raised by [self.options[i]] *)
| KeyError (name : string).              (* raised by [_s(...)[name]] *)

(** [PromptPandocCommand.transform]; [options] is [self.options] and
    [items] is [_s('transformations')]. *)
Definition transform (options : list string)
    (items : list (string * Transformation)) (i : Z) : transformed :=
  if (i =? -1)%Z then Cancelled
  else
    match list_index options i with
    | None => IndexError
    | Some name =>
        match dict_get name items with
        | None => KeyError name
        | Some transformation => RunCommand transformation
        end
    end.

End Prompt.

(* ================================================================= *)
(** ** class PandocCommand *)

Module Pandoc.
Import Str Settings.

(** The two buffers [run] can write to: [self.view], and the view that
    [w.new_file()] opens. *)
Inductive buffer := Originating | Fresh.

(** What [run] does to the editor and to the system, in order. *)
Inductive event :=
| error_message (msg : string)
| message_dialog (msg : string)
| print (line : string)
| Popen (cmd : list string) (stdin : string)
| call (cmd : list string)
| startfile (path : string)
| new_file
| replace (target : buffer) (text : string)
| set_syntax_file (target : buffer) (name : string).

(** An event that changes a buffer. *)
Definition mutates_buffer (e : event) : bool :=
  match e with
  | new_file | replace _ _ | set_syntax_file _ _ => true
  | _ => false
  end.

Inductive exn :=
| UnboundLocalError (name : string)
| UnicodeDecodeError.

(** How a call ends: by [return], or by an exception that nothing in the
    plugin catches. *)
Inductive ending :=
| Returned
| Raised (e : exn).

Section Host.

(** The view: [view.score_selector(0, scope)] and the text of the buffer. *)
Variable score_selector : string -> Z.
Variable contents : string.

(** The settings [pandoc-path] and [pandoc-format-file]. *)
Variable pandoc_path : option string.
Variable pandoc_format_file : list string.

(** The system: [os.path.exists], [os.path.join], the directories of
    [os.environ['PATH']], [tempfile.NamedTemporaryFile().name],
    [sublime.platform()], [os.name], and whether the viewer call raises. *)
Variable path_exists : string -> bool.
Variable path_join : string -> string -> string.
Variable env_PATH : list string.
Variable temp_name : string.
Variable platform : string.
Variable os_name : string.
Variable viewer_raises : bool.

(** The converter: [Popen(cmd, ...).communicate(stdin)] gives the bytes of
    its output and diagnostic streams. *)
Variable communicate : list string -> string -> string * string.

(** [str.encode('utf-8')], [bytes.decode('utf-8')] and [str.strip()];
    [decode] gives [None] for bytes that are not UTF-8, where Python raises
    [UnicodeDecodeError]. *)
Variable encode : string -> string.
Variable decode : string -> option string.
Variable strip : string -> string.

(** [_find_binary(name, default)] with the messages it shows. *)
Definition find_binary (name : string) (default : option string)
    : option string * list event :=
  match default with
  | Some d =>
      if path_exists d then (Some d, [])
      else (None, [error_message
                     ("configured path for " ++ name ++ " " ++ d
                      ++ " not found.")])
  | None =>
      match find (fun dirname => path_exists (path_join dirname name))
                 env_PATH with
      | Some dirname => (Some (path_join dirname name), [])
      | None =>
          (None, [error_message "Could not find pandoc executable on PATH."])
      end
  end.

(** The loop under [# from format]; [iformat] is [None] while the local
    variable is unbound. *)
Fixpoint iformat_loop (items : list (string * string)) (score : Z)
    (iformat : option string) : option string :=
  match items with
  | [] => iformat
  | (scope, c_iformat) :: rest =>
      let c_score := score_selector scope in
      if (c_score <=? score)%Z then iformat_loop rest score iformat
      else iformat_loop rest c_score (Some c_iformat)
  end.

Definition input_format (transformation : Transformation) : option string :=
  iformat_loop (scope transformation) 0%Z None.

(** [args.get(short=['t', 'w'], long=['to', 'write'])] *)
Definition output_format (args : Args.t) : option string :=
  Args.get (Some ["t"; "w"]) (Some ["to"; "write"]) args.

(** The lines under [# pandoc doesn't actually take 'pdf' ...]. *)
Definition pdf_handling (args : Args.t) : Args.t :=
  match output_format args with
  | Some oformat =>
      if String.eqb oformat "pdf"
      then Args.remove (Some ["t"; "w"]) (Some ["to"; "write"])
                       (Some ["pdf"]) args
      else args
  | None => args
  end.

(** The lines under [# if write to file, add -o if necessary]: the
    arguments, and [output_path] when it is bound. *)
Definition file_handling (oformat : option string) (args : Args.t)
    : Args.t * option string :=
  match oformat with
  | Some f =>
      if mem f pandoc_format_file then
        match Args.get (Some ["o"]) (Some ["output"]) args with
        | Some output_path => (args, Some output_path)
        | None =>
            let output_path := (temp_name ++ "." ++ f)%string in
            (args ++ ["-o"; output_path], Some output_path)
        end
      else (args, None)
  | None => (args, None)
  end.

(** The arguments that [cmd.extend(args)] receives. *)
Definition final_args (transformation : Transformation) : Args.t :=
  let args := pandoc_arguments transformation in
  fst (file_handling (output_format args) (pdf_handling args)).

(** The lines under [# if write to file, open]. *)
Definition open_viewer (output_path : string) : list event :=
  let attempt :=
    if String.eqb platform "osx" then [call ["open"; output_path]]
    else if String.eqb platform "windows" then [startfile output_path]
    else if String.eqb os_name "posix" then [call ["xdg-open"; output_path]]
    else [] in
  match attempt with
  | [] => []
  | _ => if viewer_raises
         then attempt ++ [message_dialog ("Wrote to file " ++ output_path)]
         else attempt
  end.

(** The lines under [# write to buffer].  The text is decoded where the
    arguments of [view.replace] are evaluated: after [w.new_file()], before
    the replacement. *)
Definition write_buffer (transformation : Transformation) (result : string)
    : list event * ending :=
  if String.eqb result EmptyString then ([], Returned)
  else if new_buffer transformation then
    match decode result with
    | Some text =>
        ([new_file; replace Fresh text;
          set_syntax_file Fresh (syntax_file transformation)],
         Returned)
    | None => ([new_file], Raised UnicodeDecodeError)
    end
  else
    match decode result with
    | Some text =>
        ([replace Originating text;
          set_syntax_file Originating (syntax_file transformation)],
         Returned)
    | None => ([], Raised UnicodeDecodeError)
    end.

(** The message of the branch [if error:], built before
    [sublime.error_message] is called; [None] when decoding raises. *)
Definition conversion_error (cmd : list string) (error : string)
    : option string :=
  match decode error with
  | Some text =>
      Some (join (String newline (String newline EmptyString))
                 ["Error when running:"; join " " cmd; strip text])
  | None => None
  end.

(** [PandocCommand.run(edit, transformation)] *)
Definition run (transformation : Transformation) : list event * ending :=
  let (found, shown) := find_binary "pandoc" pandoc_path in
  match found with
  | None => (shown, Returned)
  | Some pandoc =>
      match input_format transformation with
      | None => (shown, Raised (UnboundLocalError "iformat"))
      | Some iformat =>
          let args := pandoc_arguments transformation in
          let oformat := output_format args in
          let (args, output_path) :=
            file_handling oformat (pdf_handling args) in
          let cmd := [pandoc; "-f"; iformat] ++ args in
          let stdin := encode contents in
          let (result, error) := communicate cmd stdin in
          if negb (String.eqb error EmptyString) then
            match conversion_error cmd error with
            | Some msg =>
                (shown ++ [Popen cmd stdin; error_message msg], Returned)
            | None => (shown ++ [Popen cmd stdin], Raised UnicodeDecodeError)
            end
          else
            let (written, ending) := write_buffer transformation result in
            (shown ++ [Popen cmd stdin; print (join " " cmd)]
               ++ match output_path with
                  | Some path => open_viewer path
                  | None => []
                  end
               ++ written,
             ending)
      end
  end.

End Host.

End Pandoc.

(* ================================================================= *)
(** ** Settings: [merge_user_settings] and [_s]

    [sublime.load_settings('Pandoc.sublime-settings')] holds two groups,
    [default] and [user]; each [settings.get] hands out a fresh value, so
    the updates below touch no shared object.  A group is a dictionary; the
    value under a key is either a mapping from transformation names to
    transformation definitions, themselves dictionaries from field names to
    values, or any other value.  Under the key [transformations], [Other]
    stands for a value that is not a dictionary. *)

Module Merge.
Import Settings.

(** [d.pop(k, ...)] and [d.pop(k, None)]: the dictionary without the key.
    The keys of a dictionary are distinct. *)
Fixpoint dict_pop {W : Type} (k : string) (d : list (string * W))
    : list (string * W) :=
  match d with
  | [] => []
  | (k', w) :: rest =>
      if String.eqb k k' then dict_pop k rest
      else (k', w) :: dict_pop k rest
  end.

(** [d.update(u)]: the items of [u] are set in [d] one after the other. *)
Definition dict_update {W : Type} (d u : list (string * W))
    : list (string * W) :=
  fold_left (fun acc kv => dict_set (fst kv) (snd kv) acc) u d.

Inductive error :=
| AttributeError            (* [.items()] on a value that has none *)
| TypeError                 (* indexing a value that is no dictionary *)
| KeyError (key : string).

Inductive result (A : Type) :=
| Ok (a : A)
| Raise (e : error).

Arguments Ok {A} a.
Arguments Raise {A} e.

Section Values.

Variable V : Type.

(** A transformation definition: field name to value. *)
Definition definition := list (string * V).

Inductive entry :=
| Transformations (m : list (string * definition))
| Other (v : V).

Definition group := list (string * entry).

(** The body of [for name, data in user_transformations.items()]. *)
Definition merge_transformation (transformations : list (string * definition))
    (item : string * definition) : list (string * definition) :=
  let (name, data) := item in
  match dict_get name transformations with
  | Some old => dict_set name (dict_update old data) transformations
  | None => dict_set name data transformations
  end.

(** The lines from [default['transformations'] = transformations] on. *)
Definition merge_rest (default user : group) (transformations : entry)
    : group :=
  dict_update (dict_set "transformations" transformations default)
              (dict_pop "transformations" user).

(** [merge_user_settings()], given the two groups.  A value that is not a
    dictionary has no [items]; in the loop, asking it for [name], or
    assigning to it at [name], raises [TypeError]. *)
Definition merge_user_settings (default user : group) : result group :=
  match user with
  | [] => Ok default
  | _ :: _ =>
      let transformations := dict_get "transformations" default in
      let default := dict_pop "transformations" default in
      match dict_get "transformations" user with
      | Some (Other _) => Raise AttributeError
      | Some (Transformations user_transformations) =>
          match transformations with
          | Some (Other v) =>
              match user_transformations with
              | [] => Ok (merge_rest default user (Other v))
              | _ :: _ => Raise TypeError
              end
          | Some (Transformations m) =>
              Ok (merge_rest default user
                    (Transformations
                       (fold_left merge_transformation
                                  user_transformations m)))
          | None =>
              Ok (merge_rest default user
                    (Transformations
                       (fold_left merge_transformation
                                  user_transformations [])))
          end
      | None =>
          match transformations with
          | Some e => Ok (merge_rest default user e)
          | None => Ok (merge_rest default user (Transformations []))
          end
      end
  end.

(** [_s(key)] *)
Definition _s (key : string) (default user : group) : result entry :=
  match merge_user_settings default user with
  | Ok settings =>
      match dict_get key settings with
      | Some e => Ok e
      | None => Raise (KeyError key)
      end
  | Raise e => Raise e
  end.

(** The transformations a group declares: those under its key
    [transformations], none when the key is missing; [None] when the value
    under the key is no mapping. *)
Definition declared (g : group) : option (list (string * definition)) :=
  match dict_get "transformations" g with
  | Some (Transformations m) => Some m
  | Some (Other _) => None
  | None => Some []
  end.

End Values.

Arguments Transformations {V} m.
Arguments Other {V} v.

End Merge.

(* ================================================================= *)
(** ** Lists *)

Module Seq.

(** [l] is [l'] with some elements left out. *)
Inductive subsequence {A : Type} : list A -> list A -> Prop :=
| subsequence_nil : subsequence [] []
| subsequence_skip x l l' : subsequence l l' -> subsequence l (x :: l')
| subsequence_keep x l l' : subsequence l l' -> subsequence (x :: l) (x :: l').

End Seq.

(* ================================================================= *)
(** ** PromptPandocCommand.run *)

Module PromptRun.
Import Settings Prompt.

(** What the command does to the window. *)
Inductive event :=
| error_message (msg : string)
| show_quick_panel (items : option (list string)).

(** The active view, as far as the command looks at it:
    [view.score_selector(0, .)] and [view.settings().get('syntax')]. *)
Record view := {
  score_selector : string -> Z;
  syntax : string
}.

(** [PromptPandocCommand.run]: [active_view] is
    [self.window.active_view()], [options] is [self.options] at the call and
    [items] is [_s('transformations').items()].  The result is what the
    window sees and [self.options] at return.  When [transformations]
    returns by its bare [return], the panel is given [None]. *)
Definition run (active_view : option view) (options : list string)
    (items : list (string * Transformation))
    : list event * list string :=
  match active_view with
  | None => ([], options)
  | Some v =>
      match transformations (score_selector v) (syntax v) items with
      | NoMatchError msg =>
          ([error_message msg; show_quick_panel None], options)
      | Options names => ([show_quick_panel (Some names)], names)
      end
  end.

End PromptRun.

(* ================================================================= *)
(** ** A small configuration, used to run the definitions *)

Module Examples.
Import Settings.

Definition markdown_html : Transformation := {|
  scope := [("text.html", "html"); ("text.html.markdown", "markdown")];
  pandoc_arguments := ["-t"; "html"];
  new_buffer := true;
  syntax_file := "Packages/HTML/HTML.tmLanguage"
|}.

Definition markdown_pdf : Transformation := {|
  scope := [("text.html.markdown", "markdown")];
  pandoc_arguments := ["-t"; "pdf"];
  new_buffer := false;
  syntax_file := "Packages/Text/Plain text.tmLanguage"
|}.

Definition html_markdown : Transformation := {|
  scope := [("text.html", "html")];
  pandoc_arguments := ["--to=markdown"];
  new_buffer := false;
  syntax_file := "Packages/Markdown/Markdown.tmLanguage"
|}.

Definition configured : list (string * Transformation) :=
  [("Markdown to HTML", markdown_html);
   ("Markdown to PDF", markdown_pdf);
   ("HTML to Markdown", html_markdown)].

(** The scores of a view that shows a Markdown document. *)
Definition markdown_view (selector : string) : Z :=
  if String.eqb selector "text.html.markdown" then 24%Z
  else if String.eqb selector "text.html" then 16%Z
  else 0%Z.

(** A transformation whose scope has no entry. *)
Definition unscoped : Transformation := {|
  scope := [];
  pandoc_arguments := ["-t"; "html"];
  new_buffer := true;
  syntax_file := "Packages/HTML/HTML.tmLanguage"
|}.

(** A converter that writes to its diagnostic stream only. *)
Definition failing_converter (cmd : list string) (stdin : string)
    : string * string :=
  (EmptyString, "pandoc: Unknown writer: pdf").

(** A converter whose diagnostic stream is the byte 255, which is not
    UTF-8. *)
Definition garbled_converter (cmd : list string) (stdin : string)
    : string * string :=
  (EmptyString, String "255"%char EmptyString).

Definition between (lo hi : N) (c : ascii) : bool :=
  (lo <=? N_of_ascii c)%N && (N_of_ascii c <=? hi)%N.

(** The byte sequences that are UTF-8: one to four bytes per character,
    no overlong form, no surrogate, nothing above U+10FFFF. *)
Fixpoint valid_utf8 (bytes : string) : bool :=
  match bytes with
  | EmptyString => true
  | String a rest =>
      if between 0 127 a then valid_utf8 rest
      else
        match rest with
        | EmptyString => false
        | String b rest2 =>
            if between 194 223 a then between 128 191 b && valid_utf8 rest2
            else
              match rest2 with
              | EmptyString => false
              | String c rest3 =>
                  if between 224 239 a then
                    (if between 224 224 a then between 160 191 b
                     else if between 237 237 a then between 128 159 b
                     else between 128 191 b)
                    && between 128 191 c && valid_utf8 rest3
                  else
                    match rest3 with
                    | EmptyString => false
                    | String d rest4 =>
                        between 240 244 a
                        && (if between 240 240 a then between 144 191 b
                            else if between 244 244 a then between 128 143 b
                            else between 128 191 b)
                        && between 128 191 c && between 128 191 d
                        && valid_utf8 rest4
                    end
              end
        end
  end.

(** [bytes.decode('utf-8')], with a text written as its UTF-8 bytes. *)
Definition decode_utf8 (bytes : string) : option string :=
  if valid_utf8 bytes then Some bytes else None.

(** A converter that answers with a heading and no diagnostics. *)
Definition html_converter (cmd : list string) (stdin : string)
    : string * string :=
  ("<h1>Title</h1>", EmptyString).

(** A converter that writes a file and nothing to its streams. *)
Definition silent_converter (cmd : list string) (stdin : string)
    : string * string :=
  (EmptyString, EmptyString).

Definition markdown_docx : Transformation := {|
  scope := [("text.html.markdown", "markdown")];
  pandoc_arguments := ["--standalone"; "-t"; "docx"];
  new_buffer := false;
  syntax_file := "Packages/Text/Plain text.tmLanguage"
|}.

(** The two groups of a settings file, with strings for values. *)
Definition default_group : Merge.group string :=
  [("pandoc-path", Merge.Other "/usr/bin/pandoc");
   ("transformations",
    Merge.Transformations
      [("Markdown to HTML",
        [("new-buffer", "true"); ("syntax_file", "HTML.tmLanguage")]);
       ("HTML to Markdown", [("syntax_file", "Markdown.tmLanguage")])])].

Definition user_group : Merge.group string :=
  [("transformations",
    Merge.Transformations
      [("Markdown to PDF", [("syntax_file", "Text.tmLanguage")]);
       ("Markdown to HTML", [("new-buffer", "false")])]);
   ("pandoc-path", Merge.Other "/opt/pandoc/bin/pandoc")].

End Examples.

(* ================================================================= *)
(** * Properties *)

(** ** Strings *)

Module StrFacts.
Import Str.

Lemma strip_prefix_app (p r : string) : strip_prefix p (p ++ r) = Some r.
Proof.
  induction p as [|a p IH]; simpl; [reflexivity|].
  now rewrite Ascii.eqb_refl.
Qed.

Lemma strip_prefix_Some (p s r : string) :
  strip_prefix p s = Some r -> s = (p ++ r)%string.
Proof.
  revert s; induction p as [|a p IH]; simpl; intros s H.
  - now inversion H.
  - destruct s as [|b s]; [discriminate|].
    destruct (Ascii.eqb a b) eqn:E; [|discriminate].
    apply Ascii.eqb_eq in E; subst b. now rewrite (IH _ H).
Qed.

Lemma strip_prefix_iff (p s r : string) :
  strip_prefix p s = Some r <-> s = (p ++ r)%string.
Proof.
  split; [apply strip_prefix_Some|intros ->; apply strip_prefix_app].
Qed.

(** Stripping [p ++ q] is stripping [p], then [q]. *)
Lemma strip_prefix_append (p q s : string) :
  strip_prefix (p ++ q) s =
  match strip_prefix p s with
  | Some r => strip_prefix q r
  | None => None
  end.
Proof.
  revert s; induction p as [|a p IH]; simpl; intros s; [reflexivity|].
  destruct s as [|b s]; [reflexivity|].
  destruct (Ascii.eqb a b); [apply IH|reflexivity].
Qed.

Lemma has_newline_app (a b : string) :
  has_newline (a ++ b) = has_newline a || has_newline b.
Proof.
  induction a as [|c a IH]; simpl; [reflexivity|].
  now rewrite IH, orb_assoc.
Qed.

Lemma has_newline_strip (p s r : string) :
  strip_prefix p s = Some r -> has_newline s = false -> has_newline r = false.
Proof.
  intros H Hs. apply strip_prefix_Some in H; subst s.
  rewrite has_newline_app in Hs. now apply orb_false_iff in Hs.
Qed.

Lemma span_line_free (s : string) :
  has_newline s = false -> span_line s = (s, EmptyString).
Proof.
  induction s as [|a s IH]; simpl; intros H; [reflexivity|].
  apply orb_false_iff in H as [Ha Hs].
  now rewrite Ha, (IH Hs).
Qed.

Lemma append_empty_r (s : string) : (s ++ "")%string = s.
Proof. induction s as [|a s IH]; simpl; [reflexivity|now rewrite IH]. Qed.

End StrFacts.

(** ** The patterns *)

Module ReFacts.
Import Str StrFacts Re.

Lemma first_alternative_ext {A : Type} (f g : string -> option A) alts :
  (forall alt, In alt alts -> f alt = g alt) ->
  first_alternative f alts = first_alternative g alts.
Proof.
  induction alts as [|a alts IH]; simpl; intros H; [reflexivity|].
  rewrite (H a) by now left.
  destruct (g a); [reflexivity|]. apply IH. intros; apply H; now right.
Qed.

Lemma first_alternative_existsb {A : Type} (f : string -> option A) alts :
  match first_alternative f alts with Some _ => true | None => false end
  = existsb (fun alt => match f alt with Some _ => true | None => false end)
            alts.
Proof.
  induction alts as [|a alts IH]; simpl; [reflexivity|].
  destruct (f a); [reflexivity|exact IH].
Qed.

Lemma alternatives_spelled (spellings : list string) :
  spellings <> [] -> alternatives spellings = spellings.
Proof. destruct spellings; [congruence|reflexivity]. Qed.

(** On a token without line feed, [$] is the end of the token. *)
Lemma at_end_free (rest : string) :
  has_newline rest = false -> at_end rest = String.eqb rest EmptyString.
Proof.
  unfold at_end. intros H.
  destruct (String.eqb rest LF) eqn:E; [|apply orb_false_r].
  apply String.eqb_eq in E; subst rest. discriminate H.
Qed.

Lemma dot_plus_end_free (v : string) :
  has_newline v = false ->
  dot_plus_end v = if String.eqb v EmptyString then None else Some v.
Proof.
  intros H. unfold dot_plus_end. rewrite (span_line_free _ H).
  unfold at_end; simpl. now destruct (String.eqb v EmptyString).
Qed.

Lemma append_eq_self (k rest : string) :
  (k ++ rest)%string = k -> rest = EmptyString.
Proof.
  induction k as [|a k IH]; simpl; intros H; [assumption|].
  apply IH. injection H as H. exact H.
Qed.

(** One alternative of the short pattern, on what follows the hyphen. *)
Lemma short_alternative_exact (k r : string) :
  has_newline r = false ->
  match
    match strip_prefix k r with
    | Some rest => if at_end rest then Some tt else None
    | None => None
    end
  with Some _ => true | None => false end = String.eqb r k.
Proof.
  intros Hr. destruct (strip_prefix k r) as [rest|] eqn:Ek.
  - rewrite (at_end_free _ (has_newline_strip _ _ _ Ek Hr)).
    apply strip_prefix_Some in Ek; subst r.
    destruct (String.eqb rest "") eqn:Er.
    + apply String.eqb_eq in Er; subst rest.
      rewrite append_empty_r. symmetry. apply String.eqb_refl.
    + symmetry. apply String.eqb_neq. intros H.
      apply append_eq_self in H. apply String.eqb_neq in Er. congruence.
  - symmetry. apply String.eqb_neq. intros ->.
    pose proof (strip_prefix_app k "") as C.
    rewrite append_empty_r in C. congruence.
Qed.

(** With a list of spellings that is not empty and a token without line
    feed, the short pattern matches exactly the tokens [-k]. *)
Lemma search_short_exact (short : list string) (arg : string) :
  short <> [] -> has_newline arg = false ->
  search_short short arg = ArgsSpec.is_short short arg.
Proof.
  intros Hs Hn. unfold search_short, ArgsSpec.is_short.
  rewrite (alternatives_spelled _ Hs).
  destruct (strip_prefix "-" arg) as [r|] eqn:E.
  - rewrite first_alternative_existsb.
    pose proof (has_newline_strip _ _ _ E Hn) as Hr.
    apply strip_prefix_Some in E; subst arg.
    clear Hs Hn. induction short as [|k short IH]; simpl; [reflexivity|].
    rewrite IH. now rewrite (short_alternative_exact k r Hr).
  - clear Hs. induction short as [|k short IH]; cbn [existsb]; [reflexivity|].
    rewrite <- IH, orb_false_r. symmetry. apply String.eqb_neq. intros ->.
    simpl in E. discriminate E.
Qed.

(** One alternative of the long pattern, on a token without line feed. *)
Lemma long_alternative_exact (key arg : string) :
  has_newline arg = false ->
  match strip_prefix "--" arg with
  | Some r =>
      match strip_prefix key r with
      | Some rest =>
          match strip_prefix "=" rest with
          | Some v => dot_plus_end v
          | None => None
          end
      | None => None
      end
  | None => None
  end
  = match strip_prefix ("--" ++ key ++ "=") arg with
    | Some v => if String.eqb v EmptyString then None else Some v
    | None => None
    end.
Proof.
  intros Hn. rewrite strip_prefix_append.
  destruct (strip_prefix "--" arg) as [r|] eqn:E; [|reflexivity].
  rewrite strip_prefix_append.
  destruct (strip_prefix key r) as [rest|] eqn:Ek; [|reflexivity].
  destruct (strip_prefix "=" rest) as [v|] eqn:Ev; [|reflexivity].
  apply dot_plus_end_free.
  eauto using has_newline_strip.
Qed.

(** With a list of spellings that is not empty and a token without line
    feed, the long pattern matches exactly the tokens [--key=value] with a
    value that is not empty, and group 2 is that value. *)
Lemma search_long_exact (long : list string) (arg : string) :
  long <> [] -> has_newline arg = false ->
  search_long long arg = ArgsSpec.long_value long arg.
Proof.
  intros Hs Hn. unfold search_long, ArgsSpec.long_value.
  rewrite (alternatives_spelled _ Hs).
  destruct (strip_prefix "--" arg) as [r|] eqn:E.
  - apply first_alternative_ext. intros key _. cbv beta.
    rewrite <- (long_alternative_exact key arg Hn). now rewrite E.
  - clear Hs.
    induction long as [|key long IH]; cbn [first_alternative];
      [reflexivity|].
    rewrite <- (long_alternative_exact key arg Hn). rewrite E. exact IH.
Qed.

End ReFacts.

(** ** The argument vector *)

Module ArgsFacts.
Import Str StrFacts Re ReFacts.

Section Spellings.

Variables short long : option (list string).

(** A token that neither pattern matches, met outside value position, is
    stepped over by [get] and kept by [remove]. *)
Lemma get_loop_nonflag (arg : string) (rest : Args.t) :
  ArgsSpec.is_flag short long arg = false ->
  Args.get_loop short long false (arg :: rest)
  = Args.get_loop short long false rest.
Proof.
  unfold ArgsSpec.is_flag. intros H. apply orb_false_iff in H as [Hs Hl].
  cbn [Args.get_loop].
  destruct short as [sh|]; [rewrite Hs|];
    (destruct long as [lg|]; [|reflexivity]);
    now destruct (search_long lg arg).
Qed.

Lemma remove_loop_nonflag values (arg : string) (rest : Args.t) :
  ArgsSpec.is_flag short long arg = false ->
  Args.remove_loop short long values false (arg :: rest)
  = arg :: Args.remove_loop short long values false rest.
Proof.
  unfold ArgsSpec.is_flag. intros H. apply orb_false_iff in H as [Hs Hl].
  cbn [Args.remove_loop].
  destruct short as [sh|]; [rewrite Hs|];
    (destruct long as [lg|]; [|reflexivity]);
    now destruct (search_long lg arg).
Qed.

Lemma get_loop_skip (pre rest : Args.t) :
  ArgsSpec.no_flags short long pre ->
  Args.get_loop short long false (pre ++ rest)
  = Args.get_loop short long false rest.
Proof.
  induction 1 as [|arg pre Harg _ IH]; [reflexivity|].
  rewrite <- app_comm_cons, get_loop_nonflag by assumption. exact IH.
Qed.

Lemma remove_loop_fixed values (args : Args.t) :
  ArgsSpec.no_flags short long args ->
  Args.remove_loop short long values false args = args.
Proof.
  induction 1 as [|arg args Harg _ IH]; [reflexivity|].
  rewrite remove_loop_nonflag by assumption. now rewrite IH.
Qed.

Lemma value_tokens_unspelled (args : Args.t) :
  ArgsSpec.value_tokens None args = [].
Proof. now destruct args. Qed.

(** What [remove] keeps is matched by neither pattern, when no filter is
    given or when no token in value position is. *)
Lemma remove_loop_kept values (args : Args.t) : forall value,
  (short = None -> value = false) ->
  values = None
  \/ ArgsSpec.no_flags short long (ArgsSpec.pending_values short value args) ->
  ArgsSpec.no_flags short long
    (Args.remove_loop short long values value args).
Proof.
  unfold ArgsSpec.no_flags.
  induction args as [|arg rest IH]; intros value Hv H; [constructor|].
  cbn [Args.remove_loop].
  destruct short as [sh|] eqn:Es.
  - destruct value.
    + destruct values as [vs|].
      * destruct H as [H|H]; [discriminate|].
        cbn [ArgsSpec.pending_values] in H. inversion H; subst.
        destruct (negb (mem arg vs));
          [constructor; [assumption|]|]; apply IH; auto; discriminate.
      * apply IH; [discriminate|now left].
    + destruct (search_short sh arg) eqn:E.
      * apply IH; [discriminate|].
        destruct H as [H|H]; [now left|right].
        cbn [ArgsSpec.pending_values ArgsSpec.value_tokens] in H.
        now rewrite E in H.
      * assert (values = None
                \/ Forall (fun tok => ArgsSpec.is_flag (Some sh) long tok = false)
                     (ArgsSpec.pending_values (Some sh) false rest)) as H'.
        { destruct H as [H|H]; [now left|right].
          cbn [ArgsSpec.pending_values ArgsSpec.value_tokens] in H.
          now rewrite E in H. }
        specialize (IH false ltac:(discriminate) H').
        destruct long as [lg|].
        -- destruct (search_long lg arg) eqn:El; [assumption|].
           constructor; [|assumption].
           unfold ArgsSpec.is_flag. now rewrite E, El.
        -- constructor; [|assumption].
           unfold ArgsSpec.is_flag. now rewrite E.
  - rewrite (Hv eq_refl) in *.
    assert (Forall (fun tok => ArgsSpec.is_flag None long tok = false)
              (Args.remove_loop None long values false rest)) as IH'.
    { apply IH; [reflexivity|right].
      cbn [ArgsSpec.pending_values]. rewrite value_tokens_unspelled.
      constructor. }
    destruct long as [lg|].
    + destruct (search_long lg arg) eqn:El; [assumption|].
      constructor; [|assumption].
      unfold ArgsSpec.is_flag. now rewrite El.
    + constructor; [|assumption]. reflexivity.
Qed.

(** Where neither pattern matches a token, [get] finds nothing. *)
Lemma get_no_flags (args : Args.t) :
  ArgsSpec.no_flags short long args -> Args.get short long args = None.
Proof.
  intros H. unfold Args.get.
  rewrite <- (app_nil_r args), get_loop_skip by assumption. reflexivity.
Qed.

(** In value position [get] returns the token, whatever it is. *)
Lemma get_loop_pending sh (args : Args.t) :
  short = Some sh ->
  Args.get_loop short long true args
  = match args with v :: _ => Some v | [] => None end.
Proof. intros ->. now destruct args. Qed.

Lemma remove_loop_pending sh values (args : Args.t) :
  short = Some sh ->
  Args.remove_loop short long values true args
  = match args with
    | v :: rest =>
        match values with
        | Some vs =>
            if mem v vs then Args.remove_loop short long values false rest
            else v :: Args.remove_loop short long values false rest
        | None => Args.remove_loop short long values false rest
        end
    | [] => []
    end.
Proof.
  intros ->. destruct args as [|v rest]; [reflexivity|].
  cbn [Args.remove_loop]. destruct values as [vs|]; [|reflexivity].
  now destruct (mem v vs).
Qed.

(** On tokens without line feed and with spelling lists that are not
    empty, the patterns decide what the specification calls a short and a
    long flag. *)
Lemma short_flag_exact (arg : string) :
  ArgsSpec.spelled short -> has_newline arg = false ->
  match short with
  | Some sh => search_short sh arg
  | None => false
  end = ArgsSpec.short_flag short arg.
Proof.
  unfold ArgsSpec.spelled, ArgsSpec.short_flag. intros Hs Hn.
  destruct short as [sh|]; [|reflexivity].
  apply search_short_exact; congruence.
Qed.

Lemma long_flag_exact (arg : string) :
  ArgsSpec.spelled long -> has_newline arg = false ->
  match long with
  | Some lg => search_long lg arg
  | None => None
  end = ArgsSpec.long_flag long arg.
Proof.
  unfold ArgsSpec.spelled, ArgsSpec.long_flag. intros Hs Hn.
  destruct long as [lg|]; [|reflexivity].
  apply search_long_exact; congruence.
Qed.

Lemma get_exact (args : Args.t) :
  ArgsSpec.spelled short -> ArgsSpec.spelled long ->
  ArgsSpec.newline_free args ->
  Args.get short long args = ArgsSpec.get short long args.
Proof.
  intros Hs Hl Hn. unfold Args.get.
  induction Hn as [|arg rest Harg _ IH]; [reflexivity|].
  cbn [Args.get_loop ArgsSpec.get].
  rewrite <- (short_flag_exact arg Hs Harg), <- (long_flag_exact arg Hl Harg).
  destruct short as [sh|] eqn:Es.
  - destruct (search_short sh arg).
    + rewrite <- Es. apply (get_loop_pending sh). exact Es.
    + destruct long as [lg|]; [|exact IH].
      destruct (search_long lg arg); [reflexivity|exact IH].
  - destruct long as [lg|]; [|exact IH].
    destruct (search_long lg arg); [reflexivity|exact IH].
Qed.

Lemma remove_exact values (args : Args.t) :
  ArgsSpec.spelled short -> ArgsSpec.spelled long ->
  ArgsSpec.newline_free args ->
  Args.remove short long values args = ArgsSpec.remove short long values args.
Proof.
  intros Hs Hl. unfold Args.remove.
  induction args as [args IH] using (induction_ltof1 _ (@List.length _)).
  unfold ltof in IH. intros Hn.
  destruct args as [|arg rest]; [reflexivity|].
  inversion Hn as [|? ? Harg Hrest]; subst.
  cbn [Args.remove_loop ArgsSpec.remove].
  rewrite <- (short_flag_exact arg Hs Harg), <- (long_flag_exact arg Hl Harg).
  assert (Args.remove_loop short long values false rest
          = ArgsSpec.remove short long values rest) as IHrest
    by (apply IH; [simpl; lia|assumption]).
  destruct short as [sh|] eqn:Es.
  - destruct (search_short sh arg).
    + rewrite <- Es, (remove_loop_pending sh) by exact Es.
      destruct rest as [|v rest']; [reflexivity|].
      inversion Hrest; subst.
      rewrite (IH rest') by (simpl; lia || assumption).
      reflexivity.
    + destruct long as [lg|]; [|now rewrite IHrest].
      destruct (search_long lg arg); now rewrite IHrest.
  - destruct long as [lg|]; [|now rewrite IHrest].
    destruct (search_long lg arg); now rewrite IHrest.
Qed.

(** *** [remove] on the heap *)

Lemma append_last (pre : Objects.heap) (acc : Args.t) (arg : string) :
  Objects.append (pre ++ [acc]) (List.length pre) arg = pre ++ [acc ++ [arg]].
Proof.
  unfold Objects.append.
  rewrite nth_error_app2 by apply Nat.le_refl.
  rewrite Nat.sub_diag. cbn [nth_error].
  rewrite firstn_app, Nat.sub_diag, firstn_all, firstn_O, app_nil_r.
  rewrite skipn_all2 by (rewrite length_app; simpl; lia).
  reflexivity.
Qed.

Lemma skipn_nth_error {A : Type} (v : list A) : forall i x,
  nth_error v i = Some x -> skipn i v = x :: skipn (S i) v.
Proof.
  induction v as [|y v IH]; intros [|i] x H; try discriminate.
  - now inversion H.
  - apply (IH i x H).
Qed.

Lemma skipn_past {A : Type} (v : list A) (i : nat) :
  nth_error v i = None -> skipn i v = [].
Proof. intros H. apply skipn_all2. now apply nth_error_None. Qed.

(** The loop on the heap appends to [ret] what the loop on values lists,
    and touches nothing else. *)
Lemma remove_iter_spec values (pre : Objects.heap) (self : nat) (v : Args.t) :
  nth_error pre self = Some v ->
  forall fuel i value acc,
  List.length v - i < fuel ->
  Objects.remove_iter short long values fuel (pre ++ [acc]) self
    (List.length pre) i value
  = Some (pre ++ [acc ++ Args.remove_loop short long values value
                                          (skipn i v)]).
Proof.
  intros Hself. induction fuel as [|fuel IH]; intros i value acc Hfuel.
  - lia.
  - cbn [Objects.remove_iter].
    rewrite nth_error_app1 by (apply nth_error_Some; congruence).
    rewrite Hself. destruct (nth_error v i) as [arg|] eqn:E.
    2:{ rewrite (skipn_past _ _ E). cbn [Args.remove_loop].
        now rewrite app_nil_r. }
    rewrite (skipn_nth_error _ _ _ E).
    assert (i < List.length v) as Hi by (apply nth_error_Some; congruence).
    unfold Objects.remove_body. cbn [Args.remove_loop].
    destruct short as [sh|].
    + destruct value.
      * destruct values as [vs|].
        -- destruct (negb (mem arg vs)).
           ++ rewrite append_last, IH by lia. now rewrite <- app_assoc.
           ++ now rewrite IH by lia.
        -- now rewrite IH by lia.
      * destruct (search_short sh arg); [now rewrite IH by lia|].
        destruct long as [lg|].
        -- destruct (search_long lg arg); [now rewrite IH by lia|].
           rewrite append_last, IH by lia. now rewrite <- app_assoc.
        -- rewrite append_last, IH by lia. now rewrite <- app_assoc.
    + destruct long as [lg|].
      * destruct (search_long lg arg); [now rewrite IH by lia|].
        rewrite append_last, IH by lia. now rewrite <- app_assoc.
      * rewrite append_last, IH by lia. now rewrite <- app_assoc.
Qed.

(** With fuel for one step per token and one more to see the end, the
    method returns: the heap has grown by the new object, which holds
    [Args.remove] of the receiver. *)
Lemma remove_method_spec values (h : Objects.heap) (self : nat) (v : Args.t)
    (fuel : nat) :
  nth_error h self = Some v -> List.length v < fuel ->
  Objects.remove_method short long values fuel h self
  = Some (h ++ [Args.remove short long values v], List.length h).
Proof.
  intros Hself Hfuel. unfold Objects.remove_method, Args.remove.
  rewrite (remove_iter_spec values h self v Hself) by lia.
  reflexivity.
Qed.

End Spellings.

(** A token [-k] with [k] among the spellings is matched by the short
    pattern. *)
Lemma search_short_spelling (sh : list string) (k : string) :
  In k sh -> search_short sh ("-" ++ k) = true.
Proof.
  intros Hk. unfold search_short.
  rewrite (strip_prefix_app "-" k).
  rewrite alternatives_spelled by (intros ->; destruct Hk).
  rewrite first_alternative_existsb. apply existsb_exists.
  exists k. split; [assumption|].
  pose proof (strip_prefix_app k "") as E. rewrite append_empty_r in E.
  now rewrite E.
Qed.

(** C2 (amended).  For every argument vector whose tokens hold no line feed
    and every pair of optional spelling lists that are not empty and whose
    spellings are plain (no character of a spelling is a pattern
    metacharacter), [get] scans the tokens from left to right with
    whole-token matching ([-tex] is not matched by the spelling [t]): on the
    first token equal to [-k] for a short spelling [k] it returns the token
    that follows, whatever that token looks like; on a token [--key=value]
    with [key] a long spelling and a value that is not empty it returns the
    value; the earliest match wins, the pending short value being looked at
    before the long pattern; and it returns [None] when no token matches. *)
Theorem get_first_match (short long : option (list string)) (args : Args.t) :
  ArgsSpec.plain_spellings short -> ArgsSpec.plain_spellings long ->
  ArgsSpec.spelled short -> ArgsSpec.spelled long ->
  ArgsSpec.newline_free args ->
  Args.get short long args = ArgsSpec.get short long args
  /\ search_short ["t"] "-tex" = false.
Proof.
  intros _ _ Hs Hl Hn. split; [now apply get_exact|reflexivity].
Qed.

Lemma get_first_match_witness :
  ArgsSpec.plain_spellings (Some ["t"; "w"])
  /\ ArgsSpec.plain_spellings (Some ["to"; "write"])
  /\ ArgsSpec.spelled (Some ["t"; "w"])
  /\ ArgsSpec.spelled (Some ["to"; "write"])
  /\ ArgsSpec.newline_free ["-f"; "markdown"; "--to=html"; "-t"; "pdf"]
  /\ Args.get (Some ["t"; "w"]) (Some ["to"; "write"])
       ["-f"; "markdown"; "--to=html"; "-t"; "pdf"]
     = ArgsSpec.get (Some ["t"; "w"]) (Some ["to"; "write"])
         ["-f"; "markdown"; "--to=html"; "-t"; "pdf"]
  /\ search_short ["t"] "-tex" = false.
Proof.
  assert (ArgsSpec.plain_spellings (Some ["t"; "w"])) as Hps
    by (repeat constructor).
  assert (ArgsSpec.plain_spellings (Some ["to"; "write"])) as Hpl
    by (repeat constructor).
  assert (ArgsSpec.spelled (Some ["t"; "w"])) as Hs by discriminate.
  assert (ArgsSpec.spelled (Some ["to"; "write"])) as Hl by discriminate.
  assert (ArgsSpec.newline_free ["-f"; "markdown"; "--to=html"; "-t"; "pdf"])
    as Hn by (repeat constructor).
  split; [exact Hps|]. split; [exact Hpl|].
  split; [exact Hs|]. split; [exact Hl|]. split; [exact Hn|].
  exact (get_first_match _ _ _ Hps Hpl Hs Hl Hn).
Defined.

(** C2 as stated fails where a line feed is involved: a long flag whose
    value holds a line feed is not matched, so its value is not returned; a
    token [-t] followed by a line feed is taken as the short flag; and with
    an empty list of spellings the lone hyphen is taken as a short flag. *)
Lemma get_first_match_counterexample :
  Args.get None (Some ["to"]) [("--to=a" ++ LF ++ "b")%string] = None
  /\ ArgsSpec.get None (Some ["to"]) [("--to=a" ++ LF ++ "b")%string]
     = Some ("a" ++ LF ++ "b")%string
  /\ Args.get (Some ["t"]) None [("-t" ++ LF)%string; "x"] = Some "x"
  /\ ArgsSpec.get (Some ["t"]) None [("-t" ++ LF)%string; "x"] = None
  /\ Args.get (Some []) None ["-"; "x"] = Some "x".
Proof. repeat split. Qed.

(** C3 (amended).  For every argument vector whose tokens hold no line feed
    and spelling lists that are not empty and whose spellings are plain (no
    character of a spelling is a pattern metacharacter), [remove] returns a
    new vector and leaves the receiver unchanged.  Scanning from left to
    right, a token equal to [-k] for a short spelling [k] is dropped and the
    token after it is taken as its value, not looked at as a flag: the value
    is dropped when no filter is given, and with a filter it is kept exactly
    when it is not in the filter; a token [--key=value] with [key] a long
    spelling, met outside value position, is dropped; every other token
    passes through, in order. *)
Theorem remove_scan (short long values : option (list string))
    (args : Args.t) (h : Objects.heap) (self fuel : nat) :
  ArgsSpec.plain_spellings short -> ArgsSpec.plain_spellings long ->
  ArgsSpec.spelled short -> ArgsSpec.spelled long ->
  ArgsSpec.newline_free args ->
  nth_error h self = Some args -> List.length args < fuel ->
  Args.remove short long values args = ArgsSpec.remove short long values args
  /\ exists h',
       Objects.remove_method short long values fuel h self
       = Some (h', List.length h)
       /\ nth_error h' self = Some args
       /\ nth_error h' (List.length h)
          = Some (Args.remove short long values args)
       /\ self <> List.length h
       /\ firstn (List.length h) h' = h.
Proof.
  intros _ _ Hs Hl Hn Hself Hfuel. split; [now apply remove_exact|].
  exists (h ++ [Args.remove short long values args]).
  assert (self < List.length h) as Hlt by (apply nth_error_Some; congruence).
  split; [now apply remove_method_spec|].
  split; [now rewrite nth_error_app1|].
  split; [now rewrite nth_error_app2, Nat.sub_diag by apply Nat.le_refl|].
  split; [lia|].
  now rewrite firstn_app, Nat.sub_diag, firstn_all, firstn_O, app_nil_r.
Qed.

Lemma remove_scan_witness :
  ArgsSpec.plain_spellings (Some ["t"; "w"])
  /\ ArgsSpec.plain_spellings (Some ["to"; "write"])
  /\ ArgsSpec.spelled (Some ["t"; "w"])
  /\ ArgsSpec.spelled (Some ["to"; "write"])
  /\ ArgsSpec.newline_free ["-t"; "html"; "--to=pdf"; "-w"; "pdf"; "-s"]
  /\ nth_error [["-t"; "html"; "--to=pdf"; "-w"; "pdf"; "-s"]] 0
     = Some ["-t"; "html"; "--to=pdf"; "-w"; "pdf"; "-s"]
  /\ List.length ["-t"; "html"; "--to=pdf"; "-w"; "pdf"; "-s"] < 7
  /\ Args.remove (Some ["t"; "w"]) (Some ["to"; "write"]) (Some ["pdf"])
       ["-t"; "html"; "--to=pdf"; "-w"; "pdf"; "-s"]
     = ArgsSpec.remove (Some ["t"; "w"]) (Some ["to"; "write"])
         (Some ["pdf"]) ["-t"; "html"; "--to=pdf"; "-w"; "pdf"; "-s"].
Proof.
  assert (ArgsSpec.plain_spellings (Some ["t"; "w"])) as Hps
    by (repeat constructor).
  assert (ArgsSpec.plain_spellings (Some ["to"; "write"])) as Hpl
    by (repeat constructor).
  assert (ArgsSpec.spelled (Some ["t"; "w"])) as Hs by discriminate.
  assert (ArgsSpec.spelled (Some ["to"; "write"])) as Hl by discriminate.
  assert (ArgsSpec.newline_free
            ["-t"; "html"; "--to=pdf"; "-w"; "pdf"; "-s"]) as Hn
    by (repeat constructor).
  assert (nth_error [["-t"; "html"; "--to=pdf"; "-w"; "pdf"; "-s"]] 0
          = Some ["-t"; "html"; "--to=pdf"; "-w"; "pdf"; "-s"]) as Hself
    by reflexivity.
  assert (List.length ["-t"; "html"; "--to=pdf"; "-w"; "pdf"; "-s"] < 7)
    as Hfuel by (simpl; lia).
  split; [exact Hps|]. split; [exact Hpl|].
  split; [exact Hs|]. split; [exact Hl|]. split; [exact Hn|].
  split; [exact Hself|]. split; [exact Hfuel|].
  exact (proj1 (remove_scan _ _ (Some ["pdf"]) _ _ 0 7 Hps Hpl Hs Hl Hn
                  Hself Hfuel)).
Defined.

(** C3 as stated fails: with a filter, a token that is a short flag is kept
    when it stands in value position, so the result still holds a token
    equal to [-t]; and a token [-t] followed by a line feed, which is not
    equal to [-t], is dropped with the token after it. *)
Lemma remove_scan_counterexample :
  Args.remove (Some ["t"]) None (Some ["pdf"]) ["-t"; "-t"] = ["-t"]
  /\ Args.remove (Some ["t"]) None None [("-t" ++ LF)%string; "x"] = []
  /\ ArgsSpec.remove (Some ["t"]) None None [("-t" ++ LF)%string; "x"]
     = [("-t" ++ LF)%string; "x"].
Proof. repeat split. Qed.





(** C10 (amended).  For plain spellings (no character of a spelling is a
    pattern metacharacter) and every argument vector whose last token is
    [-k] for a short spelling [k] and none of whose earlier tokens is
    matched by a pattern, [get] returns [None]: the pending-value state set
    on the last token is dropped when the loop ends. *)
Theorem get_trailing_short (sh : list string) (long : option (list string))
    (pre : Args.t) (k : string) :
  ArgsSpec.plain_spellings (Some sh) -> ArgsSpec.plain_spellings long ->
  In k sh -> ArgsSpec.no_flags (Some sh) long pre ->
  Args.get (Some sh) long (pre ++ [("-" ++ k)%string]) = None.
Proof.
  intros _ _ Hk Hpre. unfold Args.get. rewrite get_loop_skip by assumption.
  cbn [Args.get_loop]. now rewrite (search_short_spelling sh k Hk).
Qed.

Lemma get_trailing_short_witness :
  ArgsSpec.plain_spellings (Some ["t"; "w"])
  /\ ArgsSpec.plain_spellings (Some ["to"; "write"])
  /\ In "t" ["t"; "w"]
  /\ ArgsSpec.no_flags (Some ["t"; "w"]) (Some ["to"; "write"])
       ["-f"; "markdown"]
  /\ Args.get (Some ["t"; "w"]) (Some ["to"; "write"])
       (["-f"; "markdown"] ++ [("-" ++ "t")%string]) = None.
Proof.
  assert (ArgsSpec.plain_spellings (Some ["t"; "w"])) as Hps
    by (repeat constructor).
  assert (ArgsSpec.plain_spellings (Some ["to"; "write"])) as Hpl
    by (repeat constructor).
  assert (In "t" ["t"; "w"]) as Hk by (left; reflexivity).
  assert (ArgsSpec.no_flags (Some ["t"; "w"]) (Some ["to"; "write"])
            ["-f"; "markdown"]) as Hpre by (repeat constructor).
  split; [exact Hps|]. split; [exact Hpl|].
  split; [exact Hk|]. split; [exact Hpre|].
  exact (get_trailing_short _ _ _ _ Hps Hpl Hk Hpre).
Defined.

(** C10 as stated fails: an earlier match wins over the flag at the end,
    and a flag at the end is the value of a flag just before it. *)
Lemma get_trailing_short_counterexample :
  Args.get (Some ["t"]) None ["-t"; "html"; "-t"] = Some "html"
  /\ Args.get (Some ["t"]) None ["-t"; "-t"] = Some "-t".
Proof. split; reflexivity. Qed.

End ArgsFacts.

(** ** Dictionaries and list indexing *)

Module SettingsFacts.
Import Settings.

Section Dict.

Context {V : Type}.

Lemma dict_get_None_iff (k : string) (d : list (string * V)) :
  dict_get k d = None <-> ~ In k (map fst d).
Proof.
  induction d as [|[k' v] d IH]; simpl; [tauto|].
  destruct (String.eqb_spec k k') as [->|Hne].
  - split; [discriminate|]. intros H. exfalso. apply H. now left.
  - rewrite IH. split; [intros H [E|Hin]; congruence|tauto].
Qed.

Lemma dict_set_fresh (k : string) (v : V) (d : list (string * V)) :
  dict_get k d = None -> dict_set k v d = d ++ [(k, v)].
Proof.
  induction d as [|[k' v'] d IH]; simpl; [reflexivity|].
  destruct (String.eqb k k'); [discriminate|].
  intros H. now rewrite IH.
Qed.

Lemma dict_get_last (k : string) (v : V) (d : list (string * V)) :
  dict_get k d = None -> dict_get k (d ++ [(k, v)]) = Some v.
Proof.
  induction d as [|[k' v'] d IH]; simpl.
  - now rewrite String.eqb_refl.
  - destruct (String.eqb k k'); [discriminate|exact IH].
Qed.

Lemma dict_set_last (k : string) (v v' : V) (d : list (string * V)) :
  dict_get k d = None -> dict_set k v' (d ++ [(k, v)]) = d ++ [(k, v')].
Proof.
  induction d as [|[k' w] d IH]; simpl.
  - now rewrite String.eqb_refl.
  - destruct (String.eqb k k'); [discriminate|].
    intros H. now rewrite IH.
Qed.

End Dict.

End SettingsFacts.

(** ** The ranker *)

Module PromptFacts.
Import Settings SettingsFacts Prompt.

(** *** The stable sort *)

Lemma insert_by_score_perm (x : string * Z) (l : list (string * Z)) :
  Permutation (insert_by_score x l) (x :: l).
Proof.
  induction l as [|y l IH]; simpl; [apply Permutation_refl|].
  destruct (snd x <=? snd y)%Z; [apply Permutation_refl|].
  rewrite IH. apply perm_swap.
Qed.

Lemma sorted_perm (l : list (string * Z)) : Permutation (sorted l) l.
Proof.
  induction l as [|x l IH]; simpl; [constructor|].
  rewrite insert_by_score_perm. now constructor.
Qed.

Lemma insert_by_score_sorted (x : string * Z) (l : list (string * Z)) :
  StronglySorted (fun a b => snd a <= snd b)%Z l ->
  StronglySorted (fun a b => snd a <= snd b)%Z (insert_by_score x l).
Proof.
  induction 1 as [|y l Hl IH Hy]; simpl.
  - constructor; constructor.
  - destruct (snd x <=? snd y)%Z eqn:E.
    + apply Z.leb_le in E. constructor; [now constructor|].
      constructor; [assumption|].
      eapply Forall_impl; [|exact Hy]. simpl; intros; lia.
    + apply Z.leb_gt in E. constructor; [assumption|].
      eapply Permutation_Forall.
      * symmetry. apply insert_by_score_perm.
      * constructor; [lia|assumption].
Qed.

Lemma sorted_ascending (l : list (string * Z)) :
  StronglySorted (fun a b => snd a <= snd b)%Z (sorted l).
Proof.
  induction l as [|x l IH]; simpl; [constructor|].
  now apply insert_by_score_sorted.
Qed.

(** Insertion goes past smaller scores only, so it keeps its place among
    the entries of its own score. *)
Lemma filter_insert_by_score (v : Z) (x : string * Z) (l : list (string * Z)) :
  filter (by_score v) (insert_by_score x l)
  = filter (by_score v) (x :: l).
Proof.
  induction l as [|y l IH]; [reflexivity|].
  cbn [insert_by_score].
  destruct (snd x <=? snd y)%Z eqn:E; [reflexivity|].
  apply Z.leb_gt in E.
  cbn [filter] in *. rewrite IH. unfold by_score.
  destruct (Z.eqb_spec (snd y) v), (Z.eqb_spec (snd x) v);
    try reflexivity; lia.
Qed.

(** Stability: entries of one score keep their order. *)
Lemma sorted_stable (v : Z) (l : list (string * Z)) :
  filter (by_score v) (sorted l) = filter (by_score v) l.
Proof.
  induction l as [|x l IH]; [reflexivity|].
  cbn [sorted]. rewrite filter_insert_by_score.
  cbn [filter]. now rewrite IH.
Qed.

Lemma StronglySorted_app {A : Type} (R : A -> A -> Prop) (l1 l2 : list A) :
  StronglySorted R l1 -> StronglySorted R l2 ->
  (forall x y, In x l1 -> In y l2 -> R x y) ->
  StronglySorted R (l1 ++ l2).
Proof.
  induction 1 as [|x l1 Hl1 IH Hx]; intros H2 Hcross; [assumption|].
  simpl. constructor.
  - apply IH; [assumption|]. intros; apply Hcross; [now right|assumption].
  - apply Forall_app. split; [assumption|].
    apply Forall_forall. intros y Hy. apply Hcross; [now left|assumption].
Qed.

Lemma StronglySorted_rev {A : Type} (R : A -> A -> Prop) (l : list A) :
  StronglySorted R l -> StronglySorted (fun a b => R b a) (rev l).
Proof.
  induction 1 as [|x l Hl IH Hx]; simpl; [constructor|].
  apply StronglySorted_app; [assumption|repeat constructor|].
  intros a b Ha [<-|[]]. apply in_rev in Ha.
  rewrite Forall_forall in Hx. now apply Hx.
Qed.

(** [OrderedDict] of pairs with distinct keys lists the pairs as given. *)
Lemma fold_dict_set_fresh (l : list (string * Z)) : forall acc,
  NoDup (map fst (acc ++ l)) ->
  fold_left (fun d kv => dict_set (fst kv) (snd kv) d) l acc = acc ++ l.
Proof.
  induction l as [|[k v] l IH]; intros acc H; simpl.
  - now rewrite app_nil_r.
  - rewrite dict_set_fresh.
    + rewrite IH; rewrite <- app_assoc; [reflexivity|exact H].
    + apply dict_get_None_iff. rewrite map_app in H. simpl in H.
      apply NoDup_remove_2 in H. intros Hin. apply H.
      apply in_or_app. now left.
Qed.

Lemma OrderedDict_distinct (l : list (string * Z)) :
  NoDup (map fst l) -> OrderedDict l = l.
Proof. intros H. unfold OrderedDict. now rewrite fold_dict_set_fresh. Qed.

(** *** The two loops *)

Section View.

Variable score_selector : string -> Z.

(** Once the label has an entry, the loop raises it to the maximum. *)
Lemma rank_scopes_running (label : string) (scopes : list string) :
  forall (ranked : list (string * Z)) (best : Z),
  dict_get label ranked = None ->
  rank_scopes score_selector label scopes (ranked ++ [(label, best)])
  = ranked ++ [(label,
                fold_left Z.max (nonzero (map score_selector scopes)) best)].
Proof.
  induction scopes as [|scope scopes IH]; intros ranked best H;
    [reflexivity|].
  cbn [rank_scopes map nonzero filter].
  destruct (score_selector scope =? 0)%Z eqn:E; cbn [negb];
    [now apply IH|].
  rewrite (dict_get_last _ _ _ H). cbn [fold_left].
  destruct (best <? score_selector scope)%Z eqn:L.
  - apply Z.ltb_lt in L. rewrite (dict_set_last _ _ _ _ H), IH by assumption.
    now rewrite Z.max_r by lia.
  - apply Z.ltb_ge in L. rewrite IH by assumption.
    now rewrite Z.max_l by lia.
Qed.

(** A label met for the first time gets an entry with its first score that
    is not zero. *)
Lemma rank_scopes_fresh (label : string) (scopes : list string) :
  forall ranked : list (string * Z),
  dict_get label ranked = None ->
  rank_scopes score_selector label scopes ranked
  = ranked ++ match nonzero (map score_selector scopes) with
              | [] => []
              | s :: rest => [(label, fold_left Z.max rest s)]
              end.
Proof.
  induction scopes as [|scope scopes IH]; intros ranked H.
  - simpl. now rewrite app_nil_r.
  - cbn [rank_scopes map nonzero filter].
    destruct (score_selector scope =? 0)%Z eqn:E; cbn [negb];
      [now apply IH|].
    rewrite H, (dict_set_fresh _ _ _ H).
    now apply rank_scopes_running.
Qed.

Lemma ranked_spec_keys (items : list (string * Transformation)) (k : string) :
  In k (map fst (ranked_spec score_selector items)) -> In k (map fst items).
Proof.
  induction items as [|[label settings] items IH]; [tauto|].
  unfold ranked_spec. cbn [flat_map map fst snd].
  rewrite map_app, in_app_iff.
  intros [H|H]; [|right; now apply IH].
  destruct (best_score score_selector settings); [|destruct H].
  destruct H as [H|[]]. now left.
Qed.

Lemma ranked_spec_distinct (items : list (string * Transformation)) :
  NoDup (map fst items) ->
  NoDup (map fst (ranked_spec score_selector items)).
Proof.
  induction items as [|[label settings] items IH]; intros H;
    [constructor|].
  inversion H as [|? ? Hnotin Hrest]; subst.
  unfold ranked_spec. cbn [flat_map fst snd].
  destruct (best_score score_selector settings); [|now apply IH].
  cbn [app map fst]. constructor; [|now apply IH].
  intros Hin. apply Hnotin. now apply ranked_spec_keys.
Qed.

(** The outer loop appends, for each transformation in turn, its entry. *)
Lemma rank_items_spec (items : list (string * Transformation)) :
  forall ranked : list (string * Z),
  NoDup (map fst items) ->
  (forall label, In label (map fst items) -> dict_get label ranked = None) ->
  rank_items score_selector items ranked
  = ranked ++ ranked_spec score_selector items.
Proof.
  induction items as [|[label settings] items IH]; intros ranked Hnd Hfresh.
  - simpl. now rewrite app_nil_r.
  - inversion Hnd as [|? ? Hnotin Hrest]; subst.
    cbn [rank_items]. rewrite rank_scopes_fresh by (apply Hfresh; now left).
    unfold ranked_spec at 1. cbn [flat_map fst snd].
    fold (ranked_spec score_selector items).
    rewrite IH; [| assumption |].
    + rewrite <- app_assoc. f_equal. f_equal.
      unfold best_score, nonzero_scores, nonzero.
      now destruct (filter _ _).
    + intros l Hl. apply dict_get_None_iff. rewrite map_app, in_app_iff.
      intros [Hin|Hin].
      * apply (proj1 (dict_get_None_iff l ranked)); [|exact Hin].
        apply Hfresh. now right.
      * assert (l = label) as ->; [|contradiction].
        destruct (nonzero _); [destruct Hin|].
        destruct Hin as [Hin|[]]. now symmetry.
Qed.

(** No transformation retains a score exactly when every selector of every
    transformation scores zero. *)
Lemma ranked_spec_empty (items : list (string * Transformation)) :
  ranked_spec score_selector items = []
  <-> forall label settings selector iformat,
        In (label, settings) items ->
        In (selector, iformat) (scope settings) ->
        score_selector selector = 0%Z.
Proof.
  induction items as [|[label settings] items IH].
  - split; [intros _ ? ? ? ? []|reflexivity].
  - unfold ranked_spec. cbn [flat_map fst snd].
    fold (ranked_spec score_selector items).
    unfold best_score, nonzero_scores, nonzero.
    destruct (filter _ _) as [|s rest] eqn:E.
    + rewrite app_nil_l, IH. split.
      * intros H l st sel fmt [Heq|Hin] Hsel; [|eauto].
        inversion Heq; subst.
        destruct (Z.eqb_spec (score_selector sel) 0) as [|Hne];
          [assumption|].
        assert (In (score_selector sel)
                  (filter (fun s => negb (s =? 0)%Z)
                     (map score_selector (map fst (scope st))))) as C.
        { apply filter_In. split.
          - apply in_map. now apply (in_map fst) in Hsel.
          - now apply Z.eqb_neq in Hne; rewrite Hne. }
        rewrite E in C. destruct C.
      * intros H l st sel fmt Hin. apply (H l st sel fmt). now right.
    + split; [discriminate|]. intros H. exfalso.
      assert (In s (filter (fun s => negb (s =? 0)%Z)
                      (map score_selector (map fst (scope settings))))) as C
        by (rewrite E; now left).
      apply filter_In in C as [C Hs].
      apply in_map_iff in C as [sel [Hsel C]].
      apply in_map_iff in C as [[sel' fmt] [Hfst C]].
      simpl in Hfst. subst sel s.
      rewrite (H label settings sel' fmt (or_introl eq_refl) C) in Hs.
      discriminate Hs.
Qed.

End View.

(** C1.  For every scoring function and every transformations mapping, the
    ranker keeps for each transformation the maximum of its selectors'
    scores, skipping the selectors that score zero.  If no transformation
    retains a score it fails with the message of [NoMatchError]; otherwise
    it returns the names sorted ascending by best score with a stable sort
    and then reversed: the scores descend, and among equal scores the
    transformation iterated later in the mapping comes first. *)
Theorem transformations_ranked (score_selector : string -> Z)
    (syntax : string) (items : list (string * Transformation)) :
  NoDup (map fst items) ->
  rank_items score_selector items [] = ranked_spec score_selector items
  /\ (ranked_spec score_selector items = []
      <-> forall label settings selector iformat,
            In (label, settings) items ->
            In (selector, iformat) (scope settings) ->
            score_selector selector = 0%Z)
  /\ (ranked_spec score_selector items = [] ->
      transformations score_selector syntax items
      = NoMatchError
          ("No transformations configured for the syntax " ++ syntax))
  /\ (ranked_spec score_selector items <> [] ->
      exists ascending,
        transformations score_selector syntax items
        = Options (rev (map fst ascending))
        /\ Permutation ascending (ranked_spec score_selector items)
        /\ StronglySorted (fun a b => snd a <= snd b)%Z ascending
        /\ (forall v, filter (by_score v) ascending
                      = filter (by_score v)
                          (ranked_spec score_selector items))
        /\ StronglySorted (fun a b => snd b <= snd a)%Z (rev ascending)
        /\ (forall v, filter (by_score v) (rev ascending)
                      = rev (filter (by_score v)
                               (ranked_spec score_selector items)))).
Proof.
  intros Hnd.
  assert (rank_items score_selector items []
          = ranked_spec score_selector items) as Hranked
    by (now rewrite rank_items_spec).
  split; [exact Hranked|]. split; [apply ranked_spec_empty|].
  unfold transformations. rewrite Hranked. split.
  - now intros ->.
  - intros Hne. exists (sorted (ranked_spec score_selector items)).
    destruct (ranked_spec score_selector items) as [|p ranked] eqn:E;
      [congruence|].
    cbn [List.length Nat.eqb]. rewrite <- E.
    rewrite OrderedDict_distinct.
    2:{ eapply Permutation_NoDup.
        - apply Permutation_map. symmetry. apply sorted_perm.
        - now apply ranked_spec_distinct. }
    split; [reflexivity|]. split; [apply sorted_perm|].
    split; [apply sorted_ascending|]. split; [intros; apply sorted_stable|].
    split; [apply (StronglySorted_rev _ _ (sorted_ascending _))|].
    intros v. now rewrite filter_rev, sorted_stable.
Qed.

Lemma transformations_ranked_witness :
  NoDup (map fst Examples.configured)
  /\ rank_items Examples.markdown_view Examples.configured []
     = ranked_spec Examples.markdown_view Examples.configured.
Proof.
  assert (NoDup (map fst Examples.configured)) as Hnd.
  { repeat constructor; simpl; intuition discriminate. }
  split; [exact Hnd|].
  exact (proj1 (transformations_ranked Examples.markdown_view
                  "Packages/Markdown/Markdown.tmLanguage"
                  Examples.configured Hnd)).
Defined.

(** The ranking of the example: two transformations tie at 24, and the one
    iterated later comes first. *)
Example transformations_markdown :
  transformations Examples.markdown_view
    "Packages/Markdown/Markdown.tmLanguage" Examples.configured
  = Options ["Markdown to PDF"; "Markdown to HTML"; "HTML to Markdown"].
Proof. reflexivity. Qed.




End PromptFacts.

(** ** The executor *)

Module PandocFacts.
Import Str StrFacts Settings Pandoc.

Section Host.

Variable score_selector : string -> Z.
Variable contents : string.
Variable pandoc_path : option string.
Variable pandoc_format_file : list string.
Variable path_exists : string -> bool.
Variable path_join : string -> string -> string.
Variable env_PATH : list string.
Variable temp_name : string.
Variable platform : string.
Variable os_name : string.
Variable viewer_raises : bool.
Variable communicate : list string -> string -> string * string.
Variable encode : string -> string.
Variable decode : string -> option string.
Variable strip : string -> string.

(** The loop keeps the format of the first entry whose score is above the
    starting score and not below any other, or leaves [iformat] as it
    was. *)
Lemma iformat_loop_spec (items : list (string * string)) :
  forall (score : Z) (iformat : option string),
  (iformat_loop score_selector items score iformat = iformat
   /\ Forall (fun e => score_selector (fst e) <= score)%Z items)
  \/ exists pre sel f post,
       items = pre ++ (sel, f) :: post
       /\ iformat_loop score_selector items score iformat = Some f
       /\ (score < score_selector sel)%Z
       /\ Forall (fun e => score_selector (fst e) < score_selector sel)%Z pre
       /\ Forall (fun e => score_selector (fst e) <= score_selector sel)%Z
            post.
Proof.
  induction items as [|[scope c_iformat] items IH]; intros score iformat.
  - left. split; [reflexivity|constructor].
  - cbn [iformat_loop].
    destruct (Z.leb_spec (score_selector scope) score) as [Hle|Hgt].
    + destruct (IH score iformat)
        as [[E Hall]|(pre & sel & f & post & -> & E & Hs & Hpre & Hpost)].
      * left. split; [exact E|]. constructor; assumption.
      * right. exists ((scope, c_iformat) :: pre), sel, f, post.
        repeat split; try assumption.
        constructor; [simpl; lia|assumption].
    + right.
      destruct (IH (score_selector scope) (Some c_iformat))
        as [[E Hall]|(pre & sel & f & post & -> & E & Hs & Hpre & Hpost)].
      * exists [], scope, c_iformat, items.
        repeat split; try assumption. constructor.
      * exists ((scope, c_iformat) :: pre), sel, f, post.
        repeat split; try assumption; [lia|].
        constructor; [simpl; lia|assumption].
Qed.

Lemma find_binary_found (name : string) (default : option string)
    (pandoc : string) :
  fst (Pandoc.find_binary path_exists path_join env_PATH name default)
  = Some pandoc ->
  Pandoc.find_binary path_exists path_join env_PATH name default
  = (Some pandoc, []).
Proof.
  unfold Pandoc.find_binary.
  destruct default as [d|].
  - destruct (path_exists d); simpl; [now intros [= ->]|discriminate].
  - destruct (find _ env_PATH); simpl; [now intros [= ->]|discriminate].
Qed.

(** What the last lines do is done to a buffer. *)
Lemma write_buffer_events (transformation : Transformation)
    (result : string) (e : event) :
  In e (fst (write_buffer decode transformation result)) ->
  mutates_buffer e = true.
Proof.
  unfold write_buffer.
  destruct (String.eqb result ""); [intros []|].
  destruct (new_buffer transformation), (decode result); cbn [fst In];
    repeat (intros [<-|H]; [reflexivity|revert H]); intros [].
Qed.

(** C4.  The executor walks the scope entries of the transformation and
    keeps the input format bound to the selector with the highest score
    against the document, a later entry replacing an earlier one only when
    its score is strictly greater, so that ties keep the first seen; [-f] is
    handed to the converter only with a resolved format.  When nothing is
    resolved, as with an empty scope or one that does not match the
    document, the run reports no failure of its own: where [-f] is to be
    emitted the local [iformat] is unbound, and the run ends in an
    [UnboundLocalError] that nothing catches, with no message shown, where
    the missing binary a few lines above is reported with [error_message]
    and a return. *)
Theorem input_format_resolved (transformation : Transformation) :
  match input_format score_selector transformation with
  | Some f =>
      exists pre sel post,
        scope transformation = pre ++ (sel, f) :: post
        /\ (0 < score_selector sel)%Z
        /\ Forall (fun e => score_selector (fst e) < score_selector sel)%Z pre
        /\ Forall (fun e => score_selector (fst e) <= score_selector sel)%Z
             post
  | None =>
      Forall (fun e => score_selector (fst e) <= 0)%Z (scope transformation)
  end
  /\ (scope transformation = [] ->
      input_format score_selector transformation = None)
  /\ (forall pandoc,
        fst (Pandoc.find_binary path_exists path_join env_PATH "pandoc"
               pandoc_path) = Some pandoc ->
        input_format score_selector transformation = None ->
        Pandoc.run score_selector contents pandoc_path pandoc_format_file
          path_exists path_join env_PATH temp_name platform os_name
          viewer_raises communicate encode decode strip transformation
        = ([], Raised (UnboundLocalError "iformat")))
  /\ (forall cmd stdin,
        In (Popen cmd stdin)
           (fst (Pandoc.run score_selector contents pandoc_path
                   pandoc_format_file path_exists path_join env_PATH
                   temp_name platform os_name viewer_raises communicate
                   encode decode strip transformation)) ->
        exists pandoc f args,
          input_format score_selector transformation = Some f
          /\ cmd = [pandoc; "-f"; f] ++ args).
Proof.
  split; [|split; [|split]].
  - unfold input_format.
    destruct (iformat_loop_spec (scope transformation) 0%Z None)
      as [[E Hall]|(pre & sel & f & post & Hscope & E & Hs & Hpre & Hpost)];
      rewrite E; [assumption|].
    now exists pre, sel, post.
  - unfold input_format. now intros ->.
  - intros pandoc Hfound Hnone. unfold Pandoc.run.
    apply find_binary_found in Hfound.
    rewrite Hfound, Hnone. reflexivity.
  - intros cmd stdin. unfold Pandoc.run.
    destruct (Pandoc.find_binary path_exists path_join env_PATH
                "pandoc" pandoc_path) as [[pandoc|] shown] eqn:Hfound.
    2:{ cbn [fst]. intros Hin. exfalso. revert Hfound Hin.
        unfold Pandoc.find_binary. destruct pandoc_path as [d|].
        - destruct (path_exists d); [discriminate|].
          intros [= <-] [Hin|[]]. discriminate Hin.
        - destruct (find _ env_PATH); [discriminate|].
          intros [= <-] [Hin|[]]. discriminate Hin. }
    assert (shown = []) as ->.
    { pose proof (find_binary_found "pandoc" pandoc_path pandoc) as F.
      rewrite Hfound in F.
      specialize (F eq_refl). now inversion F. }
    destruct (input_format score_selector transformation) as [f|];
      [|intros []].
    destruct (file_handling _ _ _ _) as [args output_path].
    destruct (communicate _ _) as [result error].
    destruct (negb (String.eqb error "")).
    + destruct (conversion_error _ _ _ _) as [msg|]; cbn [fst app];
        intros [Hin|Hin];
        try (injection Hin as <- _; now exists pandoc, f, args).
      * destruct Hin as [Hin|[]]. discriminate Hin.
      * destruct Hin.
    + destruct (write_buffer decode transformation result)
        as [written ending] eqn:W.
      cbn [fst app]. intros [Hin|Hin];
        [injection Hin as <- _; now exists pandoc, f, args|].
      exfalso. destruct Hin as [Hin|Hin]; [discriminate Hin|].
      apply in_app_or in Hin as [Hin|Hin].
      * destruct output_path as [path|]; [|destruct Hin].
        unfold open_viewer in Hin.
        destruct (String.eqb platform "osx"), (String.eqb platform "windows"),
          (String.eqb os_name "posix"), viewer_raises;
          simpl in Hin; intuition discriminate.
      * pose proof (write_buffer_events transformation result
                      (Popen cmd stdin)) as Q.
        rewrite W in Q. specialize (Q Hin). discriminate Q.
Qed.

(** C5.  When the diagnostic stream of the converter is not empty and
    decodes as UTF-8, the run shows one error message, made of the command
    line it invoked and of the diagnostic text, and returns.  When the
    stream does not decode, [error.decode('utf-8')] raises while the message
    is being built: the run ends in [UnicodeDecodeError] and no message is
    shown.  In both cases no buffer is opened or replaced and no syntax is
    set. *)
Theorem conversion_error_shown (transformation : Transformation)
    (pandoc iformat result error : string) :
  fst (Pandoc.find_binary path_exists path_join env_PATH "pandoc"
         pandoc_path) = Some pandoc ->
  input_format score_selector transformation = Some iformat ->
  communicate
    ([pandoc; "-f"; iformat] ++ final_args pandoc_format_file temp_name
                                  transformation)
    (encode contents) = (result, error) ->
  error <> EmptyString ->
  let cmd := [pandoc; "-f"; iformat]
             ++ final_args pandoc_format_file temp_name transformation in
  Pandoc.run score_selector contents pandoc_path pandoc_format_file
    path_exists path_join env_PATH temp_name platform os_name viewer_raises
    communicate encode decode strip transformation
  = match decode error with
    | Some text =>
        ([Popen cmd (encode contents);
          error_message ("Error when running:" ++ LF ++ LF ++ join " " cmd
                         ++ LF ++ LF ++ strip text)],
         Returned)
    | None => ([Popen cmd (encode contents)], Raised UnicodeDecodeError)
    end
  /\ forallb (fun e => negb (mutates_buffer e))
       (fst (Pandoc.run score_selector contents pandoc_path
               pandoc_format_file path_exists path_join env_PATH temp_name
               platform os_name viewer_raises communicate encode decode
               strip transformation))
     = true.
Proof.
  intros Hfound Hformat Hrun Herror cmd.
  assert (Pandoc.run score_selector contents pandoc_path pandoc_format_file
            path_exists path_join env_PATH temp_name platform os_name
            viewer_raises communicate encode decode strip transformation
          = match decode error with
            | Some text =>
                ([Popen cmd (encode contents);
                  error_message ("Error when running:" ++ LF ++ LF
                                 ++ join " " cmd ++ LF ++ LF ++ strip text)],
                 Returned)
            | None =>
                ([Popen cmd (encode contents)], Raised UnicodeDecodeError)
            end) as E.
  { subst cmd. unfold Pandoc.run.
    apply find_binary_found in Hfound.
    rewrite Hfound, Hformat. unfold final_args in *.
    destruct (file_handling _ _ _ _) as [args output_path].
    cbn [fst] in *. rewrite Hrun.
    apply String.eqb_neq in Herror. rewrite Herror. cbn [negb].
    unfold conversion_error. now destruct (decode error). }
  rewrite E. split; [reflexivity|].
  now destruct (decode error).
Qed.

End Host.

Lemma input_format_resolved_witness :
  fst (Pandoc.find_binary (fun _ => true) (fun d n => (d ++ "/" ++ n)%string)
         ["/usr/bin"] "pandoc" None) = Some "/usr/bin/pandoc"
  /\ input_format Examples.markdown_view Examples.html_markdown
     = Some "html"
  /\ input_format Examples.markdown_view Examples.markdown_html
     = Some "markdown"
  /\ input_format Examples.markdown_view Examples.unscoped = None
  /\ Pandoc.run Examples.markdown_view "# Title" None [] (fun _ => true)
       (fun d n => (d ++ "/" ++ n)%string) ["/usr/bin"] "/tmp/tmp0" "linux"
       "posix" false Examples.html_converter (fun s => s)
       Examples.decode_utf8 (fun s => s) Examples.unscoped
     = ([], Raised (UnboundLocalError "iformat")).
Proof.
  split; [reflexivity|]. split; [reflexivity|]. split; [reflexivity|].
  split; [reflexivity|].
  refine (proj1 (proj2 (proj2
            (input_format_resolved Examples.markdown_view "# Title" None []
               (fun _ => true) (fun d n => (d ++ "/" ++ n)%string)
               ["/usr/bin"] "/tmp/tmp0" "linux" "posix" false
               Examples.html_converter (fun s => s) Examples.decode_utf8
               (fun s => s) Examples.unscoped)))
            "/usr/bin/pandoc" eq_refl eq_refl).
Defined.

(** A scope that does not match the document ends the run the same way. *)
Example unmatched_scope_unbound :
  Pandoc.run (fun _ => 0%Z) "# Title" None [] (fun _ => true)
    (fun d n => (d ++ "/" ++ n)%string) ["/usr/bin"] "/tmp/tmp0" "linux"
    "posix" false Examples.html_converter (fun s => s) Examples.decode_utf8
    (fun s => s) Examples.markdown_html
  = ([], Raised (UnboundLocalError "iformat")).
Proof. reflexivity. Qed.

Lemma conversion_error_shown_witness :
  fst (Pandoc.find_binary (fun _ => true) (fun d n => (d ++ "/" ++ n)%string)
         ["/usr/bin"] "pandoc" None) = Some "/usr/bin/pandoc"
  /\ input_format Examples.markdown_view Examples.markdown_html
     = Some "markdown"
  /\ String "255"%char EmptyString <> EmptyString
  /\ Examples.decode_utf8 (String "255"%char EmptyString) = None
  /\ Pandoc.run Examples.markdown_view "# Title" None ["pdf"] (fun _ => true)
       (fun d n => (d ++ "/" ++ n)%string) ["/usr/bin"] "/tmp/tmp0" "linux"
       "posix" false Examples.garbled_converter (fun s => s)
       Examples.decode_utf8 (fun s => s) Examples.markdown_html
     = ([Popen ["/usr/bin/pandoc"; "-f"; "markdown"; "-t"; "html"] "# Title"],
        Raised UnicodeDecodeError).
Proof.
  split; [reflexivity|]. split; [reflexivity|]. split; [discriminate|].
  split; [reflexivity|].
  refine (proj1
            (conversion_error_shown Examples.markdown_view "# Title" None
               ["pdf"] (fun _ => true) (fun d n => (d ++ "/" ++ n)%string)
               ["/usr/bin"] "/tmp/tmp0" "linux" "posix" false
               Examples.garbled_converter (fun s => s) Examples.decode_utf8
               (fun s => s) Examples.markdown_html "/usr/bin/pandoc"
               "markdown" EmptyString (String "255"%char EmptyString)
               eq_refl eq_refl eq_refl _)).
  discriminate.
Defined.

(** With diagnostics that decode, the message is shown. *)
Example conversion_error_message :
  Pandoc.run Examples.markdown_view "# Title" None ["pdf"] (fun _ => true)
    (fun d n => (d ++ "/" ++ n)%string) ["/usr/bin"] "/tmp/tmp0" "linux"
    "posix" false Examples.failing_converter (fun s => s)
    Examples.decode_utf8 (fun s => s) Examples.markdown_pdf
  = ([Popen ["/usr/bin/pandoc"; "-f"; "markdown"; "-o"; "/tmp/tmp0.pdf"]
        "# Title";
      error_message
        ("Error when running:" ++ LF ++ LF
         ++ "/usr/bin/pandoc -f markdown -o /tmp/tmp0.pdf"
         ++ LF ++ LF ++ "pandoc: Unknown writer: pdf")],
     Returned).
Proof. reflexivity. Qed.

(** C6 (amended).  If the output format resolved from the argument vector
    with the short spellings [t], [w] and the long spellings [to], [write]
    is [pdf], the vector is replaced by what [remove] gives with the filter
    [pdf]; when no token taken as the value of a [-t] or [-w] flag is itself
    matched as a flag, the result holds no token matched as a flag, so no
    [-t pdf], [-w pdf], [--to=pdf] or [--write=pdf].  The list
    [-f markdown -t pdf] resolves to [pdf] and becomes [-f markdown]. *)
Theorem pdf_flags_removed (args : Args.t) :
  output_format args = Some "pdf" ->
  ArgsSpec.no_flags (Some ["t"; "w"]) (Some ["to"; "write"])
    (ArgsSpec.value_tokens (Some ["t"; "w"]) args) ->
  pdf_handling args
  = Args.remove (Some ["t"; "w"]) (Some ["to"; "write"]) (Some ["pdf"]) args
  /\ ArgsSpec.no_flags (Some ["t"; "w"]) (Some ["to"; "write"])
       (pdf_handling args)
  /\ ~ In "-t" (pdf_handling args) /\ ~ In "-w" (pdf_handling args)
  /\ ~ In "--to=pdf" (pdf_handling args)
  /\ ~ In "--write=pdf" (pdf_handling args)
  /\ output_format ["-f"; "markdown"; "-t"; "pdf"] = Some "pdf"
  /\ pdf_handling ["-f"; "markdown"; "-t"; "pdf"] = ["-f"; "markdown"].
Proof.
  intros Hpdf Hvalues.
  assert (pdf_handling args
          = Args.remove (Some ["t"; "w"]) (Some ["to"; "write"])
              (Some ["pdf"]) args) as E
    by (unfold pdf_handling; now rewrite Hpdf).
  assert (ArgsSpec.no_flags (Some ["t"; "w"]) (Some ["to"; "write"])
            (pdf_handling args)) as Hno.
  { rewrite E. apply ArgsFacts.remove_loop_kept; [discriminate|now right]. }
  assert (forall tok,
            ArgsSpec.is_flag (Some ["t"; "w"]) (Some ["to"; "write"]) tok
            = true -> ~ In tok (pdf_handling args)) as Hout.
  { intros tok Htok Hin. unfold ArgsSpec.no_flags in Hno.
    rewrite Forall_forall in Hno. specialize (Hno tok Hin). congruence. }
  repeat split; try assumption; try (apply Hout; reflexivity).
Qed.

Lemma pdf_flags_removed_witness :
  output_format ["-s"; "--write=pdf"; "-t"; "html"] = Some "pdf"
  /\ ArgsSpec.no_flags (Some ["t"; "w"]) (Some ["to"; "write"])
       (ArgsSpec.value_tokens (Some ["t"; "w"])
          ["-s"; "--write=pdf"; "-t"; "html"])
  /\ pdf_handling ["-s"; "--write=pdf"; "-t"; "html"]
     = Args.remove (Some ["t"; "w"]) (Some ["to"; "write"]) (Some ["pdf"])
         ["-s"; "--write=pdf"; "-t"; "html"].
Proof.
  assert (output_format ["-s"; "--write=pdf"; "-t"; "html"] = Some "pdf")
    as Hpdf by reflexivity.
  assert (ArgsSpec.no_flags (Some ["t"; "w"]) (Some ["to"; "write"])
            (ArgsSpec.value_tokens (Some ["t"; "w"])
               ["-s"; "--write=pdf"; "-t"; "html"])) as Hvalues
    by (repeat constructor).
  split; [exact Hpdf|]. split; [exact Hvalues|].
  exact (proj1 (pdf_flags_removed _ Hpdf Hvalues)).
Defined.

(** C6 as stated fails where a flag stands in value position: the output
    format is [pdf], and [--to=pdf] is in the arguments handed on. *)
Lemma pdf_flags_removed_counterexample :
  output_format ["-t"; "pdf"; "-t"; "--to=pdf"] = Some "pdf"
  /\ pdf_handling ["-t"; "pdf"; "-t"; "--to=pdf"] = ["--to=pdf"].
Proof. split; reflexivity. Qed.

End PandocFacts.

(** ** Merging the settings *)

Module MergeFacts.
Import Settings SettingsFacts Merge.

Section Dict.

Context {W : Type}.

Lemma dict_get_set_same (k : string) (w : W) (d : list (string * W)) :
  dict_get k (dict_set k w d) = Some w.
Proof.
  induction d as [|[k' w'] d IH]; simpl.
  - now rewrite String.eqb_refl.
  - destruct (String.eqb k k') eqn:E; simpl; rewrite E; [reflexivity|exact IH].
Qed.

Lemma dict_get_set_other (k k' : string) (w : W) (d : list (string * W)) :
  k' <> k -> dict_get k' (dict_set k w d) = dict_get k' d.
Proof.
  intros Hne. induction d as [|[k0 w0] d IH]; simpl.
  - apply String.eqb_neq in Hne. now rewrite Hne.
  - destruct (String.eqb_spec k k0) as [->|Hk]; simpl.
    + apply String.eqb_neq in Hne. now rewrite Hne.
    + now rewrite IH.
Qed.

Lemma dict_get_pop_same (k : string) (d : list (string * W)) :
  dict_get k (dict_pop k d) = None.
Proof.
  induction d as [|[k' w'] d IH]; simpl; [reflexivity|].
  destruct (String.eqb k k') eqn:E; simpl; [exact IH|now rewrite E].
Qed.

Lemma dict_get_pop_other (k k' : string) (d : list (string * W)) :
  k' <> k -> dict_get k' (dict_pop k d) = dict_get k' d.
Proof.
  intros Hne. induction d as [|[k0 w0] d IH]; simpl; [reflexivity|].
  destruct (String.eqb_spec k k0) as [->|Hk]; simpl.
  - apply String.eqb_neq in Hne. now rewrite Hne.
  - now rewrite IH.
Qed.

Lemma dict_pop_keys (k k' : string) (d : list (string * W)) :
  In k' (map fst (dict_pop k d)) -> In k' (map fst d).
Proof.
  induction d as [|[k0 w0] d IH]; simpl; [tauto|].
  destruct (String.eqb k k0); simpl; tauto.
Qed.

Lemma dict_pop_distinct (k : string) (d : list (string * W)) :
  NoDup (map fst d) -> NoDup (map fst (dict_pop k d)).
Proof.
  induction d as [|[k0 w0] d IH]; simpl; intros H; [constructor|].
  inversion H; subst. destruct (String.eqb k k0); simpl; [auto|].
  constructor; [|auto]. intros Hin. now apply dict_pop_keys in Hin.
Qed.

(** After [d.update(u)] a key holds what [u] gives it, and what [d] gave
    it when [u] does not have the key. *)
Lemma dict_get_update (k : string) (u : list (string * W)) :
  forall d : list (string * W),
  NoDup (map fst u) ->
  dict_get k (dict_update d u)
  = match dict_get k u with
    | Some w => Some w
    | None => dict_get k d
    end.
Proof.
  unfold dict_update.
  induction u as [|[k1 w1] u IH]; intros d H; [reflexivity|].
  inversion H as [|? ? Hnotin Hrest]; subst.
  cbn [fold_left fst snd dict_get]. rewrite IH by assumption.
  destruct (String.eqb_spec k k1) as [->|Hne].
  - apply dict_get_None_iff in Hnotin. rewrite Hnotin.
    apply dict_get_set_same.
  - destruct (dict_get k u); [reflexivity|].
    now apply dict_get_set_other.
Qed.

(** Setting a key keeps the order of the keys; a new key goes last. *)
Lemma dict_set_keys (k : string) (w : W) (d : list (string * W)) :
  map fst (dict_set k w d)
  = if Str.mem k (map fst d) then map fst d else map fst d ++ [k].
Proof.
  unfold Str.mem.
  induction d as [|[k' w'] d IH]; simpl; [reflexivity|].
  destruct (String.eqb k k'); simpl; [reflexivity|].
  rewrite IH. now destruct (existsb (String.eqb k) (map fst d)).
Qed.

End Dict.

Section Values.

Variable V : Type.

Lemma merge_transformation_keys (m : list (string * definition V))
    (name : string) (data : definition V) :
  map fst (merge_transformation V m (name, data))
  = if Str.mem name (map fst m) then map fst m else map fst m ++ [name].
Proof.
  unfold merge_transformation.
  destruct (dict_get name m); apply dict_set_keys.
Qed.

Lemma merge_transformation_other (m : list (string * definition V))
    (name name' : string) (data : definition V) :
  name' <> name ->
  dict_get name' (merge_transformation V m (name, data)) = dict_get name' m.
Proof.
  intros Hne. unfold merge_transformation.
  destruct (dict_get name m); now apply dict_get_set_other.
Qed.

(** The loop over the user's transformations: a name the user defines
    holds the default definition updated with the user's, or the user's own
    when the default has none; another name holds what it held. *)
Lemma merge_loop_lookup (um : list (string * definition V)) (name : string) :
  forall m : list (string * definition V),
  NoDup (map fst um) ->
  dict_get name (fold_left (merge_transformation V) um m)
  = match dict_get name um with
    | Some u => Some match dict_get name m with
                     | Some d => dict_update d u
                     | None => u
                     end
    | None => dict_get name m
    end.
Proof.
  induction um as [|[n1 u1] um IH]; intros m H; [reflexivity|].
  inversion H as [|? ? Hnotin Hrest]; subst.
  cbn [fold_left dict_get]. rewrite IH by assumption.
  destruct (String.eqb_spec name n1) as [->|Hne].
  - apply dict_get_None_iff in Hnotin. rewrite Hnotin.
    unfold merge_transformation.
    destruct (dict_get n1 m); apply dict_get_set_same.
  - now rewrite merge_transformation_other by assumption.
Qed.

Lemma mem_app_other (x y : string) (l : list string) :
  x <> y -> Str.mem x (l ++ [y]) = Str.mem x l.
Proof.
  intros Hne. unfold Str.mem. rewrite existsb_app. simpl.
  apply String.eqb_neq in Hne. rewrite Hne. now rewrite !orb_false_r.
Qed.

(** The loop keeps the default's names in place and appends the names that
    only the user defines, in the user's order. *)
Lemma merge_loop_keys (um : list (string * definition V)) :
  forall m : list (string * definition V),
  NoDup (map fst um) ->
  map fst (fold_left (merge_transformation V) um m)
  = map fst m
    ++ filter (fun name => negb (Str.mem name (map fst m))) (map fst um).
Proof.
  induction um as [|[n1 u1] um IH]; intros m H.
  - simpl. now rewrite app_nil_r.
  - inversion H as [|? ? Hnotin Hrest]; subst.
    cbn [fold_left map fst filter]. rewrite IH by assumption.
    rewrite merge_transformation_keys.
    destruct (Str.mem n1 (map fst m)) eqn:E; cbn [negb]; [reflexivity|].
    rewrite <- app_assoc. cbn [app]. f_equal. f_equal.
    apply filter_ext_in. intros x Hx.
    rewrite mem_app_other; [reflexivity|]. intros ->. contradiction.
Qed.

(** What the last lines build holds the merged transformations under
    their key, and under any other key the user's value, or the default's
    when the user has none. *)
Lemma merge_rest_transformations (default user : group V) (e : entry V) :
  NoDup (map fst user) ->
  dict_get "transformations" (merge_rest V default user e) = Some e.
Proof.
  intros H. unfold merge_rest.
  rewrite dict_get_update by now apply dict_pop_distinct.
  rewrite dict_get_pop_same. apply dict_get_set_same.
Qed.

Lemma merge_rest_other (default user : group V) (e : entry V) (key : string) :
  NoDup (map fst user) -> key <> "transformations" ->
  dict_get key
    (merge_rest V (dict_pop "transformations" default) user e)
  = match dict_get key user with
    | Some e' => Some e'
    | None => dict_get key default
    end.
Proof.
  intros H Hne. unfold merge_rest.
  rewrite dict_get_update by now apply dict_pop_distinct.
  rewrite !dict_get_pop_other by assumption.
  now rewrite dict_get_set_other, dict_get_pop_other by assumption.
Qed.

(** With user settings, a merge that returns has gone through the last
    lines. *)
Lemma merge_returns (default user : group V) (settings : group V) :
  user <> [] ->
  merge_user_settings V default user = Ok settings ->
  exists e,
    settings = merge_rest V (dict_pop "transformations" default) user e.
Proof.
  intros Hne. unfold merge_user_settings.
  destruct user as [|item user]; [congruence|].
  destruct (dict_get "transformations" (item :: user)) as [[um|v]|];
    destruct (dict_get "transformations" default) as [[dm|v']|];
    try destruct um; intros [= <-]; eauto.
Qed.

(** With groups of the expected shape the merge returns, with the loop's
    result under [transformations]. *)
Lemma merge_declared (default user : group V)
    (dm um : list (string * definition V)) :
  user <> [] ->
  declared V default = Some dm -> declared V user = Some um ->
  merge_user_settings V default user
  = Ok (merge_rest V (dict_pop "transformations" default) user
          (Transformations (fold_left (merge_transformation V) um dm))).
Proof.
  intros Hne. unfold declared, merge_user_settings.
  destruct user as [|item user]; [congruence|].
  destruct (dict_get "transformations" (item :: user)) as [[um'|v]|];
    destruct (dict_get "transformations" default) as [[dm'|v']|];
    intros [= <-] [= <-]; reflexivity.
Qed.

End Values.

(** X1.  A setting other than the transformations is the user's value when
    the user settings have the key, and the default's otherwise. *)
Theorem setting_user_wins (V : Type) (default user settings : group V)
    (key : string) :
  NoDup (map fst user) -> key <> "transformations" ->
  merge_user_settings V default user = Ok settings ->
  dict_get key settings
  = match dict_get key user with
    | Some e => Some e
    | None => dict_get key default
    end.
Proof.
  intros Hnd Hkey Hmerge.
  destruct user as [|item user].
  - now injection Hmerge as <-.
  - destruct (merge_returns V default (item :: user) settings
                ltac:(discriminate) Hmerge) as [e ->].
    now apply merge_rest_other.
Qed.

Lemma setting_user_wins_witness :
  NoDup (map fst Examples.user_group)
  /\ "pandoc-path" <> "transformations"
  /\ dict_get "pandoc-path"
       (merge_rest string (dict_pop "transformations" Examples.default_group)
          Examples.user_group
          (Transformations
             (fold_left (merge_transformation string)
                [("Markdown to PDF", [("syntax_file", "Text.tmLanguage")]);
                 ("Markdown to HTML", [("new-buffer", "false")])]
                [("Markdown to HTML",
                  [("new-buffer", "true");
                   ("syntax_file", "HTML.tmLanguage")]);
                 ("HTML to Markdown",
                  [("syntax_file", "Markdown.tmLanguage")])])))
     = Some (Other "/opt/pandoc/bin/pandoc").
Proof.
  assert (NoDup (map fst Examples.user_group)) as Hnd.
  { repeat constructor; simpl; intuition discriminate. }
  assert ("pandoc-path" <> "transformations") as Hkey by discriminate.
  split; [exact Hnd|]. split; [exact Hkey|].
  exact (setting_user_wins string Examples.default_group Examples.user_group
           _ "pandoc-path" Hnd Hkey eq_refl).
Defined.

(** X2.  With user settings, the merged transformations hold under each
    name the user defines the default definition updated with the user's
    (the user's own when the default has none), and under any other name the
    default definition. *)
Theorem transformations_merged (V : Type) (default user : group V)
    (dm um : list (string * definition V)) :
  user <> [] -> NoDup (map fst user) ->
  declared V default = Some dm -> declared V user = Some um ->
  NoDup (map fst um) ->
  exists m,
    _s V "transformations" default user = Ok (Transformations m)
    /\ forall name,
         dict_get name m
         = match dict_get name um with
           | Some u => Some match dict_get name dm with
                            | Some d => dict_update d u
                            | None => u
                            end
           | None => dict_get name dm
           end.
Proof.
  intros Hne Hnd Hdm Hum Hndum.
  exists (fold_left (merge_transformation V) um dm). split.
  - unfold _s. rewrite (merge_declared V default user dm um Hne Hdm Hum).
    now rewrite merge_rest_transformations.
  - intros name. now apply merge_loop_lookup.
Qed.

Lemma transformations_merged_witness :
  Examples.user_group <> []
  /\ NoDup (map fst Examples.user_group)
  /\ exists m,
       _s string "transformations" Examples.default_group Examples.user_group
       = Ok (Transformations m)
       /\ forall name,
            dict_get name m
            = match dict_get name
                      [("Markdown to PDF",
                        [("syntax_file", "Text.tmLanguage")]);
                       ("Markdown to HTML", [("new-buffer", "false")])] with
              | Some u =>
                  Some match dict_get name
                               [("Markdown to HTML",
                                 [("new-buffer", "true");
                                  ("syntax_file", "HTML.tmLanguage")]);
                                ("HTML to Markdown",
                                 [("syntax_file", "Markdown.tmLanguage")])]
                       with
                       | Some d => dict_update d u
                       | None => u
                       end
              | None =>
                  dict_get name
                    [("Markdown to HTML",
                      [("new-buffer", "true");
                       ("syntax_file", "HTML.tmLanguage")]);
                     ("HTML to Markdown",
                      [("syntax_file", "Markdown.tmLanguage")])]
              end.
Proof.
  assert (Examples.user_group <> []) as Hne by discriminate.
  assert (NoDup (map fst Examples.user_group)) as Hnd.
  { repeat constructor; simpl; intuition discriminate. }
  split; [exact Hne|]. split; [exact Hnd|].
  refine (transformations_merged string Examples.default_group
            Examples.user_group _ _ Hne Hnd eq_refl eq_refl _).
  repeat constructor; simpl; intuition discriminate.
Defined.

(** X3.  For a transformation that both groups define, each field of the
    merged definition is the user's when the user gives the field, and the
    default's otherwise. *)
Theorem transformation_fields_merged (V : Type) (default user : group V)
    (dm um : list (string * definition V)) (name : string)
    (d u : definition V) :
  user <> [] -> NoDup (map fst user) ->
  declared V default = Some dm -> declared V user = Some um ->
  NoDup (map fst um) ->
  dict_get name dm = Some d -> dict_get name um = Some u ->
  NoDup (map fst u) ->
  exists m merged,
    _s V "transformations" default user = Ok (Transformations m)
    /\ dict_get name m = Some merged
    /\ forall field,
         dict_get field merged
         = match dict_get field u with
           | Some v => Some v
           | None => dict_get field d
           end.
Proof.
  intros Hne Hnd Hdm Hum Hndum Hd Hu Hndu.
  exists (fold_left (merge_transformation V) um dm), (dict_update d u).
  split; [|split].
  - unfold _s. rewrite (merge_declared V default user dm um Hne Hdm Hum).
    now rewrite merge_rest_transformations.
  - rewrite merge_loop_lookup by assumption. now rewrite Hu, Hd.
  - intros field. now apply dict_get_update.
Qed.

Lemma transformation_fields_merged_witness :
  exists m merged,
    _s string "transformations" Examples.default_group Examples.user_group
    = Ok (Transformations m)
    /\ dict_get "Markdown to HTML" m = Some merged
    /\ forall field,
         dict_get field merged
         = match dict_get field [("new-buffer", "false")] with
           | Some v => Some v
           | None =>
               dict_get field
                 [("new-buffer", "true"); ("syntax_file", "HTML.tmLanguage")]
           end.
Proof.
  refine (transformation_fields_merged string Examples.default_group
            Examples.user_group _ _ "Markdown to HTML" _ _
            _ _ eq_refl eq_refl _ eq_refl eq_refl _).
  - discriminate.
  - repeat constructor; simpl; intuition discriminate.
  - repeat constructor; simpl; intuition discriminate.
  - repeat constructor; simpl; intuition discriminate.
Defined.

(** X4.  With user settings, the merged transformations list the default's
    names in the default's order, followed by the names that only the user
    defines, in the user's order. *)
Theorem transformations_order (V : Type) (default user : group V)
    (dm um : list (string * definition V)) :
  user <> [] -> NoDup (map fst user) ->
  declared V default = Some dm -> declared V user = Some um ->
  NoDup (map fst um) ->
  exists m,
    _s V "transformations" default user = Ok (Transformations m)
    /\ map fst m
       = map fst dm
         ++ filter (fun name => negb (Str.mem name (map fst dm)))
                   (map fst um).
Proof.
  intros Hne Hnd Hdm Hum Hndum.
  exists (fold_left (merge_transformation V) um dm). split.
  - unfold _s. rewrite (merge_declared V default user dm um Hne Hdm Hum).
    now rewrite merge_rest_transformations.
  - now apply merge_loop_keys.
Qed.

Lemma transformations_order_witness :
  exists m,
    _s string "transformations" Examples.default_group Examples.user_group
    = Ok (Transformations m)
    /\ map fst m
       = ["Markdown to HTML"; "HTML to Markdown"]
         ++ filter (fun name =>
                      negb (Str.mem name
                              ["Markdown to HTML"; "HTML to Markdown"]))
                   ["Markdown to PDF"; "Markdown to HTML"].
Proof.
  refine (transformations_order string Examples.default_group
            Examples.user_group _ _ _ _ eq_refl eq_refl _).
  - discriminate.
  - repeat constructor; simpl; intuition discriminate.
  - repeat constructor; simpl; intuition discriminate.
Defined.


(** X6.  Asking the merged settings for the transformations raises
    [KeyError] only when there are no user settings and the default group
    has no such key: with user settings the key is always there. *)
Theorem transformations_key_error (V : Type) (default user : group V) :
  NoDup (map fst user) ->
  _s V "transformations" default user = Raise (KeyError "transformations")
  <-> user = [] /\ dict_get "transformations" default = None.
Proof.
  intros Hnd. unfold _s.
  destruct user as [|item user].
  - cbn [merge_user_settings].
    destruct (dict_get "transformations" default); split;
      try discriminate; try tauto.
    intros [_ H]. discriminate H.
  - split; [|intros [H _]; discriminate H].
    destruct (merge_user_settings V default (item :: user)) as [s|e] eqn:E.
    + destruct (merge_returns V default (item :: user) s
                  ltac:(discriminate) E) as [e ->].
      now rewrite merge_rest_transformations.
    + intros [= ->]. exfalso. revert E. unfold merge_user_settings.
      destruct (dict_get "transformations" (item :: user)) as [[um|v]|];
        destruct (dict_get "transformations" default) as [[dm|v']|];
        try destruct um; discriminate.
Qed.

Lemma transformations_key_error_witness :
  NoDup (map fst (@nil (string * entry string)))
  /\ (_s string "transformations" [("pandoc-path", Other "/usr/bin/pandoc")] []
      = Raise (KeyError "transformations")
      <-> @nil (string * entry string) = []
          /\ dict_get "transformations"
               [("pandoc-path", @Other string "/usr/bin/pandoc")] = None).
Proof.
  assert (NoDup (map fst (@nil (string * entry string)))) as Hnd
    by constructor.
  split; [exact Hnd|].
  exact (transformations_key_error string
           [("pandoc-path", Other "/usr/bin/pandoc")] [] Hnd).
Defined.

End MergeFacts.

(** ** More on the patterns and the argument vector *)

Module ArgsMore.
Import Str StrFacts Re ReFacts.

Lemma at_end_iff (rest : string) :
  at_end rest = true <-> rest = EmptyString \/ rest = LF.
Proof.
  unfold at_end. rewrite orb_true_iff, !String.eqb_eq. tauto.
Qed.

Lemma first_alternative_Some {A : Type} (k : string -> option A)
    (alts : list string) (r : A) :
  first_alternative k alts = Some r ->
  exists alt, In alt alts /\ k alt = Some r.
Proof.
  induction alts as [|a alts IH]; simpl; [discriminate|].
  destruct (k a) as [r'|] eqn:E.
  - intros [= <-]. exists a. split; [now left|assumption].
  - intros H. destruct (IH H) as [alt [Hin Halt]].
    exists alt. split; [now right|assumption].
Qed.

Lemma span_line_spec (s w r : string) :
  span_line s = (w, r) ->
  s = (w ++ r)%string /\ has_newline w = false.
Proof.
  revert w r. induction s as [|a s IH]; simpl; intros w r.
  - intros [= <- <-]. now split.
  - destruct (Ascii.eqb a newline) eqn:E.
    + intros [= <- <-]. now split.
    + destruct (span_line s) as [w' r'].
      intros [= <- <-]. destruct (IH w' r' eq_refl) as [-> Hw].
      split; [reflexivity|]. simpl. now rewrite E.
Qed.

Lemma dot_plus_end_Some (v w : string) :
  dot_plus_end v = Some w ->
  w <> EmptyString /\ has_newline w = false
  /\ (v = w \/ v = (w ++ LF)%string).
Proof.
  unfold dot_plus_end. destruct (span_line v) as [w' r] eqn:E.
  apply span_line_spec in E as [-> Hw].
  destruct (String.eqb_spec w' EmptyString) as [|Hne]; [discriminate|].
  cbn [negb andb]. destruct (at_end r) eqn:Er; [|discriminate].
  intros [= <-]. apply at_end_iff in Er.
  split; [assumption|]. split; [assumption|].
  destruct Er as [-> | ->]; [left; apply append_empty_r|now right].
Qed.

(** X7.  For plain spellings (no character of a spelling is a pattern
    metacharacter), the short pattern matches a token exactly when the token
    is a hyphen and one of the alternatives of the group, followed by
    nothing or by one line feed. *)
Theorem search_short_iff (short : list string) (arg : string) :
  Forall (fun spelling => plain spelling = true) short ->
  search_short short arg = true
  <-> exists alt, In alt (alternatives short)
                  /\ (arg = ("-" ++ alt)%string
                      \/ arg = ("-" ++ alt ++ LF)%string).
Proof.
  intros _. unfold search_short. split.
  - destruct (strip_prefix "-" arg) as [r|] eqn:E; [|discriminate].
    apply strip_prefix_Some in E. subst arg.
    destruct (first_alternative _ _) as [[]|] eqn:F; [|discriminate].
    intros _. apply first_alternative_Some in F as [alt [Hin Halt]].
    exists alt. split; [assumption|].
    destruct (strip_prefix alt r) as [rest|] eqn:Er; [|discriminate].
    apply strip_prefix_Some in Er. subst r.
    destruct (at_end rest) eqn:Ee; [|discriminate].
    apply at_end_iff in Ee as [-> | ->];
      [left; now rewrite append_empty_r|now right].
  - intros [alt [Hin H]].
    assert (exists rest, arg = ("-" ++ alt ++ rest)%string
                         /\ at_end rest = true) as [rest [-> Hrest]].
    { destruct H as [-> | ->].
      - exists EmptyString. now rewrite append_empty_r.
      - now exists LF. }
    rewrite (strip_prefix_app "-" (alt ++ rest)).
    rewrite first_alternative_existsb.
    assert (existsb
              (fun alt0 =>
                 match
                   match strip_prefix alt0 (alt ++ rest) with
                   | Some rest0 => if at_end rest0 then Some tt else None
                   | None => None
                   end
                 with Some _ => true | None => false end)
              (alternatives short) = true) as ->; [|reflexivity].
    apply existsb_exists. exists alt. split; [assumption|].
    now rewrite strip_prefix_app, Hrest.
Qed.

Lemma search_short_iff_witness :
  Forall (fun spelling => plain spelling = true) ["t"; "w"]
  /\ (search_short ["t"; "w"] ("-w" ++ LF) = true
      <-> exists alt, In alt (alternatives ["t"; "w"])
                      /\ (("-w" ++ LF)%string = ("-" ++ alt)%string
                          \/ ("-w" ++ LF)%string
                             = ("-" ++ alt ++ LF)%string)).
Proof.
  assert (Forall (fun spelling => plain spelling = true) ["t"; "w"]) as H
    by (repeat constructor).
  split; [exact H|].
  exact (search_short_iff ["t"; "w"] ("-w" ++ LF) H).
Defined.

(** X8.  For plain spellings (no character of a spelling is a pattern
    metacharacter), the value that the long pattern captures is never empty
    and holds no line feed; the token is two hyphens, one of the
    alternatives, an equals sign and that value, followed by nothing or by
    one line feed. *)
Theorem search_long_value (long : list string) (arg v : string) :
  Forall (fun spelling => plain spelling = true) long ->
  search_long long arg = Some v ->
  v <> EmptyString /\ has_newline v = false
  /\ exists key, In key (alternatives long)
                 /\ (arg = ("--" ++ key ++ "=" ++ v)%string
                     \/ arg = ("--" ++ key ++ "=" ++ v ++ LF)%string).
Proof.
  intros _. unfold search_long.
  destruct (strip_prefix "--" arg) as [r|] eqn:E; [|discriminate].
  apply strip_prefix_Some in E. subst arg. intros F.
  apply first_alternative_Some in F as [key [Hin Hkey]].
  destruct (strip_prefix key r) as [rest|] eqn:Er; [|discriminate].
  apply strip_prefix_Some in Er. subst r.
  destruct (strip_prefix "=" rest) as [v'|] eqn:Ev; [|discriminate].
  apply strip_prefix_Some in Ev. subst rest.
  apply dot_plus_end_Some in Hkey as (Hne & Hnl & Hv).
  split; [assumption|]. split; [assumption|].
  exists key. split; [assumption|].
  destruct Hv as [-> | ->]; [now left|now right].
Qed.

Lemma search_long_value_witness :
  Forall (fun spelling => plain spelling = true) ["to"; "write"]
  /\ search_long ["to"; "write"] ("--write=pdf" ++ LF) = Some "pdf"
  /\ "pdf" <> EmptyString /\ has_newline "pdf" = false.
Proof.
  assert (Forall (fun spelling => plain spelling = true) ["to"; "write"])
    as Hp by (repeat constructor).
  assert (search_long ["to"; "write"] ("--write=pdf" ++ LF) = Some "pdf")
    as H by reflexivity.
  split; [exact Hp|]. split; [exact H|].
  pose proof (search_long_value _ _ _ Hp H) as (Hne & Hnl & _).
  split; [exact Hne|exact Hnl].
Defined.

Section Spellings.

Variables short long : option (list string).

Lemma get_loop_found (args : Args.t) : forall (value : bool) (v : string),
  Args.get_loop short long value args = Some v ->
  In v args
  \/ exists lg tok, long = Some lg /\ In tok args
                    /\ search_long lg tok = Some v.
Proof.
  induction args as [|arg rest IH]; intros value v; [discriminate|].
  cbn [Args.get_loop].
  assert (forall value',
            match long with
            | Some lg =>
                match search_long lg arg with
                | Some group2 => Some group2
                | None => Args.get_loop short long value' rest
                end
            | None => Args.get_loop short long value' rest
            end = Some v ->
            In v (arg :: rest)
            \/ exists lg tok, long = Some lg /\ In tok (arg :: rest)
                              /\ search_long lg tok = Some v) as Hlong.
  { intros value' H.
    assert (Args.get_loop short long value' rest = Some v ->
            In v (arg :: rest)
            \/ exists lg tok, long = Some lg /\ In tok (arg :: rest)
                              /\ search_long lg tok = Some v) as Hrest.
    { intros H'. destruct (IH _ _ H') as [Hin|(lg & tok & Hl & Hin & Hs)].
      - left. now right.
      - right. exists lg, tok. repeat split; try assumption. now right. }
    destruct long as [lg|]; [|now apply Hrest].
    destruct (search_long lg arg) as [g|] eqn:E; [|now apply Hrest].
    injection H as <-. right. exists lg, arg.
    repeat split; try assumption. now left. }
  destruct short as [sh|]; [|apply Hlong].
  destruct value.
  - intros [= <-]. left. now left.
  - destruct (search_short sh arg); [|apply Hlong].
    intros H. destruct (IH _ _ H) as [Hin|(lg & tok & Hl & Hin & Hs)].
    + left. now right.
    + right. exists lg, tok. repeat split; try assumption. now right.
Qed.

Lemma remove_loop_subsequence values (args : Args.t) : forall value,
  Seq.subsequence (Args.remove_loop short long values value args) args.
Proof.
  induction args as [|arg rest IH]; intros value; [constructor|].
  cbn [Args.remove_loop].
  assert (forall value',
            Seq.subsequence
              match long with
              | Some lg =>
                  match search_long lg arg with
                  | Some _ => Args.remove_loop short long values value' rest
                  | None =>
                      arg :: Args.remove_loop short long values value' rest
                  end
              | None => arg :: Args.remove_loop short long values value' rest
              end (arg :: rest)) as Hlong.
  { intros value'. destruct long as [lg|]; [|now constructor].
    destruct (search_long lg arg); now constructor. }
  destruct short as [sh|]; [|apply Hlong].
  destruct value.
  - destruct values as [vs|]; [|now constructor].
    destruct (negb (mem arg vs)); now constructor.
  - destruct (search_short sh arg); [now constructor|apply Hlong].
Qed.


End Spellings.

(** X9.  What [get] returns is a token of the vector, or the value that the
    long pattern captures in one of its tokens: it is never made up. *)
Theorem get_from_vector (short long : option (list string)) (args : Args.t)
    (v : string) :
  Args.get short long args = Some v ->
  In v args
  \/ exists lg tok, long = Some lg /\ In tok args
                    /\ search_long lg tok = Some v.
Proof. apply get_loop_found. Qed.

Lemma get_from_vector_witness :
  Args.get (Some ["o"]) (Some ["output"]) ["-s"; "--output=out.docx"]
  = Some "out.docx"
  /\ (In "out.docx" ["-s"; "--output=out.docx"]
      \/ exists lg tok,
           Some ["output"] = Some lg
           /\ In tok ["-s"; "--output=out.docx"]
           /\ search_long lg tok = Some "out.docx").
Proof.
  assert (Args.get (Some ["o"]) (Some ["output"]) ["-s"; "--output=out.docx"]
          = Some "out.docx") as H by reflexivity.
  split; [exact H|].
  exact (get_from_vector _ _ _ _ H).
Defined.



(** X11.  With neither short nor long spellings, [get] finds nothing and
    [remove] returns the whole vector, whatever the values filter. *)
Theorem no_spellings (values : option (list string)) (args : Args.t) :
  Args.get None None args = None
  /\ Args.remove None None values args = args.
Proof.
  assert (ArgsSpec.no_flags None None args) as H
    by (apply Forall_forall; reflexivity).
  split; [now apply ArgsFacts.get_no_flags
         |now apply ArgsFacts.remove_loop_fixed].
Qed.

(** X12.  [remove] never adds, changes or reorders tokens: its result is
    the receiver with some tokens left out. *)
Theorem remove_subsequence (short long values : option (list string))
    (args : Args.t) :
  Seq.subsequence (Args.remove short long values args) args.
Proof. apply remove_loop_subsequence. Qed.


End ArgsMore.

(** ** More on the ranker *)

Module PromptMore.
Import Settings SettingsFacts Prompt PromptFacts.

Lemma dict_get_In {W : Type} (k : string) (d : list (string * W)) :
  In k (map fst d) -> exists w, dict_get k d = Some w /\ In (k, w) d.
Proof.
  induction d as [|[k' w'] d IH]; simpl; [tauto|].
  destruct (String.eqb_spec k k') as [->|Hne].
  - intros _. exists w'. split; [reflexivity|now left].
  - intros [E|Hin]; [congruence|].
    destruct (IH Hin) as [w [Hget Hw]]. exists w. split; [assumption|now right].
Qed.

(** The running maximum is one of the scores met, and no score met is
    above it. *)
Lemma fold_left_max_spec (l : list Z) : forall s : Z,
  (fold_left Z.max l s = s \/ In (fold_left Z.max l s) l)
  /\ (s <= fold_left Z.max l s)%Z
  /\ Forall (fun x => x <= fold_left Z.max l s)%Z l.
Proof.
  induction l as [|x l IH]; intros s; simpl.
  - split; [now left|]. split; [lia|constructor].
  - destruct (IH (Z.max s x)) as (Hin & Hle & Hall).
    split; [|split; [lia|constructor; [lia|assumption]]].
    destruct Hin as [E|Hin]; [|right; now right].
    rewrite E. destruct (Z.max_spec s x) as [[_ ->]|[_ ->]];
      [right; now left|now left].
Qed.

Section View.

Variable score_selector : string -> Z.

(** The best score is attained by a selector, it is not zero, and no score
    of the transformation that is not zero is above it. *)
Lemma best_score_spec (settings : Transformation) (best : Z) :
  best_score score_selector settings = Some best ->
  In best (nonzero_scores score_selector settings)
  /\ Forall (fun s => s <= best)%Z (nonzero_scores score_selector settings).
Proof.
  unfold best_score.
  destruct (nonzero_scores score_selector settings) as [|s rest];
    [discriminate|].
  intros [= <-]. destruct (fold_left_max_spec rest s) as (Hin & Hle & Hall).
  split; [|constructor; assumption].
  destruct Hin as [->|Hin]; [now left|now right].
Qed.

Lemma nonzero_scores_In (settings : Transformation) (s : Z) :
  In s (nonzero_scores score_selector settings)
  <-> s <> 0%Z
      /\ exists selector iformat,
           In (selector, iformat) (scope settings)
           /\ score_selector selector = s.
Proof.
  unfold nonzero_scores, nonzero. rewrite filter_In, negb_true_iff, Z.eqb_neq.
  rewrite in_map_iff. split.
  - intros [[sel [<- Hsel]] Hne]. split; [assumption|].
    apply in_map_iff in Hsel as [[sel' fmt] [Hfst Hin]].
    simpl in Hfst. subst sel'. now exists sel, fmt.
  - intros [Hne (sel & fmt & Hin & <-)]. split; [|assumption].
    exists sel. split; [reflexivity|]. now apply (in_map fst) in Hin.
Qed.

Lemma best_score_Some_iff (settings : Transformation) :
  best_score score_selector settings <> None
  <-> exists selector iformat,
        In (selector, iformat) (scope settings)
        /\ score_selector selector <> 0%Z.
Proof.
  split.
  - destruct (best_score score_selector settings) as [best|] eqn:E;
      [|congruence].
    intros _. apply best_score_spec in E as [Hin _].
    apply nonzero_scores_In in Hin as [Hne (sel & fmt & Hin & <-)].
    now exists sel, fmt.
  - intros (sel & fmt & Hin & Hne).
    assert (In (score_selector sel) (nonzero_scores score_selector settings))
      as H by (apply nonzero_scores_In; split; [assumption|now exists sel, fmt]).
    unfold best_score.
    destruct (nonzero_scores score_selector settings); [destruct H|discriminate].
Qed.

Lemma ranked_spec_In (items : list (string * Transformation)) (name : string) :
  In name (map fst (ranked_spec score_selector items))
  <-> exists settings,
        In (name, settings) items
        /\ best_score score_selector settings <> None.
Proof.
  induction items as [|[label settings] items IH].
  - simpl. split; [tauto|]. intros [? [[] _]].
  - unfold ranked_spec. cbn [flat_map fst snd].
    fold (ranked_spec score_selector items).
    rewrite map_app, in_app_iff, IH. split.
    + intros [H|[st [Hin Hb]]].
      * destruct (best_score score_selector settings) eqn:E; [|destruct H].
        destruct H as [<-|[]]. exists settings.
        split; [now left|congruence].
      * exists st. split; [now right|assumption].
    + intros [st [[Heq|Hin] Hb]].
      * injection Heq as <- <-. left.
        destruct (best_score score_selector settings); [now left|congruence].
      * right. now exists st.
Qed.

(** The list that [transformations] returns, from the ranking in the words
    of the specification. *)
Lemma transformations_names (syntax : string)
    (items : list (string * Transformation)) (names : list string) :
  NoDup (map fst items) ->
  transformations score_selector syntax items = Options names ->
  names = rev (map fst (sorted (ranked_spec score_selector items))).
Proof.
  intros Hnd. unfold transformations.
  rewrite rank_items_spec by (assumption || reflexivity).
  cbn [app].
  destruct (Nat.eqb _ 0); [discriminate|]. intros [= <-].
  rewrite OrderedDict_distinct; [reflexivity|].
  eapply Permutation_NoDup.
  - apply Permutation_map. symmetry. apply sorted_perm.
  - now apply ranked_spec_distinct.
Qed.

End View.

(** A name is returned exactly when its transformation has a selector
    whose score is not zero. *)
Lemma transformations_names_In (score_selector : string -> Z)
    (syntax : string) (items : list (string * Transformation))
    (names : list string) (name : string) :
  NoDup (map fst items) ->
  transformations score_selector syntax items = Options names ->
  In name names
  <-> exists settings selector iformat,
        In (name, settings) items
        /\ In (selector, iformat) (scope settings)
        /\ score_selector selector <> 0%Z.
Proof.
  intros Hnd H.
  rewrite (transformations_names score_selector syntax items names Hnd H).
  assert (Permutation
            (map fst (sorted (ranked_spec score_selector items)))
            (map fst (ranked_spec score_selector items))) as Hperm
    by (apply Permutation_map, sorted_perm).
  rewrite <- in_rev. split.
  - intros Hin. apply (Permutation_in _ Hperm) in Hin.
    apply ranked_spec_In in Hin as [settings [Hin Hb]].
    apply best_score_Some_iff in Hb as (sel & fmt & Hsel & Hne).
    now exists settings, sel, fmt.
  - intros (settings & sel & fmt & Hin & Hsel & Hne).
    apply (Permutation_in _ (Permutation_sym Hperm)).
    apply ranked_spec_In. exists settings. split; [assumption|].
    apply best_score_Some_iff. now exists sel, fmt.
Qed.

(** X14.  The list that [transformations] returns names each
    transformation at most once, and names exactly the transformations that
    have a selector whose score is not zero. *)
Theorem ranked_names (score_selector : string -> Z) (syntax : string)
    (items : list (string * Transformation)) (names : list string) :
  NoDup (map fst items) ->
  transformations score_selector syntax items = Options names ->
  NoDup names
  /\ forall name,
       In name names
       <-> exists settings selector iformat,
             In (name, settings) items
             /\ In (selector, iformat) (scope settings)
             /\ score_selector selector <> 0%Z.
Proof.
  intros Hnd H. split.
  - rewrite (transformations_names score_selector syntax items names Hnd H).
    apply NoDup_rev. eapply Permutation_NoDup.
    + apply Permutation_map. symmetry. apply sorted_perm.
    + now apply ranked_spec_distinct.
  - intros name. now apply (transformations_names_In _ syntax).
Qed.

Lemma ranked_names_witness :
  NoDup (map fst Examples.configured)
  /\ NoDup ["Markdown to PDF"; "Markdown to HTML"; "HTML to Markdown"].
Proof.
  assert (NoDup (map fst Examples.configured)) as Hnd.
  { repeat constructor; simpl; intuition discriminate. }
  split; [exact Hnd|].
  exact (proj1 (ranked_names Examples.markdown_view
                  "Packages/Markdown/Markdown.tmLanguage"
                  Examples.configured _ Hnd eq_refl)).
Defined.

(** X15.  An index from minus the length of the options up to -2 does not
    cancel: [transform] treats it as Python does, counting from the end of
    the list. *)
Theorem transform_negative_index (options : list string)
    (items : list (string * Transformation)) (i : Z) :
  (- Z.of_nat (List.length options) <= i < -1)%Z ->
  transform options items i
  = transform options items (Z.of_nat (List.length options) + i).
Proof.
  intros Hi. unfold transform, list_index.
  destruct (Z.eqb_spec i (-1)); [lia|].
  destruct (Z.eqb_spec (Z.of_nat (List.length options) + i) (-1)); [lia|].
  destruct (Z.leb_spec 0 i); [lia|].
  destruct (Z.leb_spec 0 (Z.of_nat (List.length options) + i)); [|lia].
  reflexivity.
Qed.

Lemma transform_negative_index_witness :
  (- Z.of_nat (List.length ["Markdown to PDF"; "Markdown to HTML"])
   <= -2 < -1)%Z
  /\ transform ["Markdown to PDF"; "Markdown to HTML"] Examples.configured (-2)
     = RunCommand Examples.markdown_pdf.
Proof.
  assert (- Z.of_nat (List.length ["Markdown to PDF"; "Markdown to HTML"])
          <= -2 < -1)%Z as Hi by (simpl; lia).
  split; [exact Hi|].
  exact (transform_negative_index ["Markdown to PDF"; "Markdown to HTML"]
           Examples.configured (-2) Hi).
Defined.

Section Order.

Variable score_selector : string -> Z.

(** Two transformations whose scopes hold the same entries have the same
    best score. *)
Lemma best_score_permuted (settings settings' : Transformation) :
  Permutation (scope settings) (scope settings') ->
  best_score score_selector settings = best_score score_selector settings'.
Proof.
  intros Hperm.
  assert (forall s, In s (nonzero_scores score_selector settings)
                    <-> In s (nonzero_scores score_selector settings')) as Hin.
  { intros s. rewrite !nonzero_scores_In.
    split; intros [Hne (sel & fmt & H & E)]; (split; [assumption|]);
      exists sel, fmt; (split; [|assumption]).
    - now apply (Permutation_in _ Hperm).
    - now apply (Permutation_in _ (Permutation_sym Hperm)). }
  destruct (best_score score_selector settings) as [b|] eqn:E,
           (best_score score_selector settings') as [b'|] eqn:E'.
  - apply best_score_spec in E as [Hb Hall], E' as [Hb' Hall'].
    rewrite Forall_forall in Hall, Hall'.
    f_equal. apply Z.le_antisymm.
    + apply Hall'. now apply Hin.
    + apply Hall. now apply Hin.
  - apply best_score_spec in E as [Hb _]. apply Hin in Hb.
    unfold best_score in E'.
    destruct (nonzero_scores score_selector settings'); [destruct Hb|discriminate].
  - apply best_score_spec in E' as [Hb _]. apply Hin in Hb.
    unfold best_score in E.
    destruct (nonzero_scores score_selector settings); [destruct Hb|discriminate].
  - reflexivity.
Qed.

End Order.

(** X16.  The ranking does not depend on the order in which the selectors
    of a transformation are iterated: two mappings with the same names in
    the same order, whose scopes hold the same entries, are ranked alike. *)
Theorem ranking_ignores_scope_order (score_selector : string -> Z)
    (syntax : string) (items items' : list (string * Transformation)) :
  NoDup (map fst items) ->
  Forall2 (fun item item' =>
             fst item = fst item'
             /\ Permutation (scope (snd item)) (scope (snd item')))
          items items' ->
  transformations score_selector syntax items
  = transformations score_selector syntax items'.
Proof.
  intros Hnd Hall.
  assert (map fst items = map fst items') as Hkeys.
  { clear Hnd. induction Hall as [|a b l l' [E _] _ IH]; [reflexivity|].
    simpl. now rewrite E, IH. }
  assert (ranked_spec score_selector items
          = ranked_spec score_selector items') as Hspec.
  { clear Hnd Hkeys.
    induction Hall as [|a b l l' [E Hp] _ IH]; [reflexivity|].
    unfold ranked_spec. cbn [flat_map].
    fold (ranked_spec score_selector l) (ranked_spec score_selector l').
    now rewrite IH, E, (best_score_permuted score_selector _ _ Hp). }
  unfold transformations.
  rewrite !rank_items_spec; try reflexivity; try assumption.
  - cbn [app]. now rewrite Hspec.
  - now rewrite <- Hkeys.
Qed.

Lemma ranking_ignores_scope_order_witness :
  NoDup (map fst [("Markdown to HTML", Examples.markdown_html)])
  /\ transformations Examples.markdown_view "Markdown.tmLanguage"
       [("Markdown to HTML", Examples.markdown_html)]
     = transformations Examples.markdown_view "Markdown.tmLanguage"
         [("Markdown to HTML",
           {| scope := [("text.html.markdown", "markdown");
                        ("text.html", "html")];
              pandoc_arguments := ["-t"; "html"];
              new_buffer := true;
              syntax_file := "Packages/HTML/HTML.tmLanguage" |})].
Proof.
  assert (NoDup (map fst [("Markdown to HTML", Examples.markdown_html)]))
    as Hnd by (repeat constructor; simpl; tauto).
  split; [exact Hnd|].
  refine (ranking_ignores_scope_order Examples.markdown_view
            "Markdown.tmLanguage" _ _ Hnd _).
  constructor; [|constructor].
  split; [reflexivity|]. apply perm_swap.
Defined.

End PromptMore.

(** ** More on the executor *)

Module PandocMore.
Import Str StrFacts Settings Pandoc PandocFacts.

Lemma find_first {A : Type} (f : A -> bool) (l : list A) (x : A) :
  find f l = Some x ->
  exists pre post,
    l = pre ++ x :: post /\ f x = true
    /\ Forall (fun y => f y = false) pre.
Proof.
  induction l as [|y l IH]; simpl; [discriminate|].
  destruct (f y) eqn:E.
  - intros [= <-]. exists [], l. repeat split; [assumption|constructor].
  - intros H. destruct (IH H) as (pre & post & -> & Hx & Hpre).
    exists (y :: pre), post. repeat split; [assumption|].
    now constructor.
Qed.

Section Host.

Variable score_selector : string -> Z.
Variable contents : string.
Variable pandoc_path : option string.
Variable pandoc_format_file : list string.
Variable path_exists : string -> bool.
Variable path_join : string -> string -> string.
Variable env_PATH : list string.
Variable temp_name : string.
Variable platform : string.
Variable os_name : string.
Variable viewer_raises : bool.
Variable communicate : list string -> string -> string * string.
Variable encode : string -> string.
Variable decode : string -> option string.
Variable strip : string -> string.

Lemma open_viewer_no_buffer (path : string) :
  filter mutates_buffer (open_viewer platform os_name viewer_raises path)
  = [].
Proof.
  unfold open_viewer.
  destruct (String.eqb platform "osx"); [now destruct viewer_raises|].
  destruct (String.eqb platform "windows"); [now destruct viewer_raises|].
  destruct (String.eqb os_name "posix"); [now destruct viewer_raises|].
  reflexivity.
Qed.

Lemma write_buffer_all (transformation : Transformation) (result : string) :
  filter mutates_buffer (fst (write_buffer decode transformation result))
  = fst (write_buffer decode transformation result).
Proof.
  unfold write_buffer.
  destruct (String.eqb result ""); [reflexivity|].
  now destruct (new_buffer transformation), (decode result).
Qed.

(** The run of a conversion whose diagnostic stream is empty. *)
Lemma run_converted (transformation : Transformation)
    (pandoc iformat result : string) :
  fst (Pandoc.find_binary path_exists path_join env_PATH "pandoc"
         pandoc_path) = Some pandoc ->
  input_format score_selector transformation = Some iformat ->
  communicate
    ([pandoc; "-f"; iformat]
     ++ final_args pandoc_format_file temp_name transformation)
    (encode contents) = (result, EmptyString) ->
  Pandoc.run score_selector contents pandoc_path pandoc_format_file
    path_exists path_join env_PATH temp_name platform os_name viewer_raises
    communicate encode decode strip transformation
  = ([Popen ([pandoc; "-f"; iformat]
             ++ final_args pandoc_format_file temp_name transformation)
            (encode contents);
      print (join " " ([pandoc; "-f"; iformat]
                       ++ final_args pandoc_format_file temp_name
                            transformation))]
     ++ match snd (file_handling pandoc_format_file temp_name
                     (output_format (pandoc_arguments transformation))
                     (pdf_handling (pandoc_arguments transformation))) with
        | Some path => open_viewer platform os_name viewer_raises path
        | None => []
        end
     ++ fst (write_buffer decode transformation result),
     snd (write_buffer decode transformation result)).
Proof.
  intros Hfound Hformat Hrun. unfold Pandoc.run.
  apply find_binary_found in Hfound. rewrite Hfound, Hformat.
  unfold final_args in *.
  destruct (file_handling _ _ _ _) as [args output_path].
  cbn [fst snd] in *. rewrite Hrun. cbn [String.eqb negb].
  now destruct (write_buffer decode transformation result).
Qed.

Lemma run_not_found (transformation : Transformation) :
  fst (Pandoc.find_binary path_exists path_join env_PATH "pandoc"
         pandoc_path) = None ->
  exists msg,
    Pandoc.run score_selector contents pandoc_path pandoc_format_file
      path_exists path_join env_PATH temp_name platform os_name
      viewer_raises communicate encode decode strip transformation
    = ([error_message msg], Returned).
Proof.
  unfold Pandoc.run, Pandoc.find_binary.
  destruct pandoc_path as [d|].
  - destruct (path_exists d); [discriminate|]. intros _. eexists. reflexivity.
  - destruct (find _ env_PATH); [discriminate|]. intros _.
    eexists. reflexivity.
Qed.

(** The run of a conversion that writes to its diagnostic stream touches
    no buffer. *)
Lemma run_diagnosed (transformation : Transformation)
    (pandoc iformat result error : string) :
  fst (Pandoc.find_binary path_exists path_join env_PATH "pandoc"
         pandoc_path) = Some pandoc ->
  input_format score_selector transformation = Some iformat ->
  communicate
    ([pandoc; "-f"; iformat]
     ++ final_args pandoc_format_file temp_name transformation)
    (encode contents) = (result, error) ->
  error <> EmptyString ->
  forall e,
    In e (fst (Pandoc.run score_selector contents pandoc_path
                 pandoc_format_file path_exists path_join env_PATH temp_name
                 platform os_name viewer_raises communicate encode decode
                 strip transformation)) ->
    mutates_buffer e = false.
Proof.
  intros Hfound Hformat Hrun Herror e. unfold Pandoc.run.
  apply find_binary_found in Hfound. rewrite Hfound, Hformat.
  unfold final_args in *.
  destruct (file_handling _ _ _ _) as [args output_path].
  cbn [fst] in *. rewrite Hrun.
  apply String.eqb_neq in Herror. rewrite Herror. cbn [negb].
  destruct (conversion_error _ _ _ _); cbn [fst app].
  - intros [<-|[<-|[]]]; reflexivity.
  - intros [<-|[]]; reflexivity.
Qed.

(** X17.  When the converter is not found, the run shows one error message
    and does nothing else: no process is started, no buffer is touched. *)
Theorem binary_missing (transformation : Transformation) :
  fst (Pandoc.find_binary path_exists path_join env_PATH "pandoc"
         pandoc_path) = None ->
  exists msg,
    Pandoc.run score_selector contents pandoc_path pandoc_format_file
      path_exists path_join env_PATH temp_name platform os_name
      viewer_raises communicate encode decode strip transformation
    = ([error_message msg], Returned).
Proof. apply run_not_found. Qed.

(** X18.  A path that [_find_binary] returns exists, and no message is
    shown with it; it is the configured path when one is configured, and
    otherwise the name joined to the first directory of the search path
    where that gives an existing path. *)
Theorem find_binary_sound (name : string) (default : option string)
    (path : string) (shown : list event) :
  Pandoc.find_binary path_exists path_join env_PATH name default
  = (Some path, shown) ->
  shown = [] /\ path_exists path = true
  /\ match default with
     | Some d => path = d
     | None =>
         exists pre dir post,
           env_PATH = pre ++ dir :: post
           /\ path = path_join dir name
           /\ Forall (fun d => path_exists (path_join d name) = false) pre
     end.
Proof.
  unfold Pandoc.find_binary. destruct default as [d|].
  - destruct (path_exists d) eqn:E; [|discriminate].
    intros [= <- <-]. now repeat split.
  - destruct (find _ env_PATH) as [dir|] eqn:E; [|discriminate].
    intros [= <- <-].
    apply find_first in E as (pre & post & Hpath & Hdir & Hpre).
    split; [reflexivity|]. split; [assumption|].
    now exists pre, dir, post.
Qed.

(** X19.  [_find_binary] gives up exactly when the configured path does
    not exist, the search path not being looked at then, or when no path is
    configured and no directory of the search path holds the name; it shows
    one error message when it gives up. *)
Theorem find_binary_gives_up (name : string) (default : option string) :
  (fst (Pandoc.find_binary path_exists path_join env_PATH name default)
   = None
   <-> match default with
       | Some d => path_exists d = false
       | None =>
           Forall (fun d => path_exists (path_join d name) = false) env_PATH
       end)
  /\ (fst (Pandoc.find_binary path_exists path_join env_PATH name default)
      = None ->
      exists msg,
        snd (Pandoc.find_binary path_exists path_join env_PATH name default)
        = [error_message msg]).
Proof.
  unfold Pandoc.find_binary. destruct default as [d|].
  - destruct (path_exists d); simpl; split;
      try (split; congruence); try discriminate.
    intros _. eexists. reflexivity.
  - destruct (find _ env_PATH) as [dir|] eqn:E; simpl; split.
    + split; [discriminate|]. intros H. exfalso.
      apply find_some in E as [Hin Hdir].
      rewrite Forall_forall in H. specialize (H _ Hin). congruence.
    + discriminate.
    + split; [|reflexivity]. intros _. apply Forall_forall.
      intros d Hd. exact (find_none _ _ E d Hd).
    + intros _. eexists. reflexivity.
Qed.

(** X20.  When the converter writes nothing to its diagnostic stream and
    something to its output, and the output decodes as UTF-8, the run
    changes one buffer: with [new-buffer] it opens a new file and fills it,
    leaving the originating buffer as it was, and otherwise it replaces the
    originating buffer; the text is the decoded output and the syntax is the
    one configured.  When the output does not decode, the run ends in
    [UnicodeDecodeError]: with [new-buffer] the new file has been opened and
    is left empty, and otherwise no buffer is touched. *)
Theorem buffer_written (transformation : Transformation)
    (pandoc iformat result : string) :
  fst (Pandoc.find_binary path_exists path_join env_PATH "pandoc"
         pandoc_path) = Some pandoc ->
  input_format score_selector transformation = Some iformat ->
  communicate
    ([pandoc; "-f"; iformat]
     ++ final_args pandoc_format_file temp_name transformation)
    (encode contents) = (result, EmptyString) ->
  result <> EmptyString ->
  (filter mutates_buffer
     (fst (Pandoc.run score_selector contents pandoc_path pandoc_format_file
             path_exists path_join env_PATH temp_name platform os_name
             viewer_raises communicate encode decode strip transformation)),
   snd (Pandoc.run score_selector contents pandoc_path pandoc_format_file
          path_exists path_join env_PATH temp_name platform os_name
          viewer_raises communicate encode decode strip transformation))
  = match decode result with
    | Some text =>
        (if new_buffer transformation then
           [new_file; replace Fresh text;
            set_syntax_file Fresh (syntax_file transformation)]
         else
           [replace Originating text;
            set_syntax_file Originating (syntax_file transformation)],
         Returned)
    | None =>
        (if new_buffer transformation then [new_file] else [],
         Raised UnicodeDecodeError)
    end.
Proof.
  intros Hfound Hformat Hrun Hresult.
  rewrite (run_converted _ _ _ _ Hfound Hformat Hrun). cbn [fst snd app filter].
  cbn [mutates_buffer]. rewrite filter_app, write_buffer_all.
  assert (filter mutates_buffer
            match snd (file_handling pandoc_format_file temp_name
                         (output_format (pandoc_arguments transformation))
                         (pdf_handling (pandoc_arguments transformation)))
            with
            | Some path => open_viewer platform os_name viewer_raises path
            | None => []
            end = []) as ->
    by (destruct (snd _); [apply open_viewer_no_buffer|reflexivity]).
  unfold write_buffer. apply String.eqb_neq in Hresult. rewrite Hresult.
  now destruct (new_buffer transformation), (decode result).
Qed.

(** X21.  A buffer is opened or changed only when the converter was found
    and run with a resolved input format, wrote nothing to its diagnostic
    stream and wrote something to its output. *)
Theorem buffer_change_needs_output (transformation : Transformation)
    (e : event) :
  In e (fst (Pandoc.run score_selector contents pandoc_path
               pandoc_format_file path_exists path_join env_PATH temp_name
               platform os_name viewer_raises communicate encode decode
               strip transformation)) ->
  mutates_buffer e = true ->
  exists pandoc iformat result,
    fst (Pandoc.find_binary path_exists path_join env_PATH "pandoc"
           pandoc_path) = Some pandoc
    /\ input_format score_selector transformation = Some iformat
    /\ communicate
         ([pandoc; "-f"; iformat]
          ++ final_args pandoc_format_file temp_name transformation)
         (encode contents) = (result, EmptyString)
    /\ result <> EmptyString.
Proof.
  intros Hin He.
  destruct (fst (Pandoc.find_binary path_exists path_join env_PATH "pandoc"
                   pandoc_path)) as [pandoc|] eqn:Hfound.
  2:{ destruct (run_not_found transformation Hfound) as [msg E].
      rewrite E in Hin. destruct Hin as [<-|[]]. discriminate He. }
  destruct (input_format score_selector transformation) as [iformat|]
    eqn:Hformat.
  2:{ exfalso. revert Hin. unfold Pandoc.run.
      rewrite (find_binary_found _ _ _ _ _ _ Hfound), Hformat.
      intros []. }
  destruct (communicate
              ([pandoc; "-f"; iformat]
               ++ final_args pandoc_format_file temp_name transformation)
              (encode contents)) as [result error] eqn:Hrun.
  destruct (String.eqb_spec error EmptyString) as [->|Herror].
  - exists pandoc, iformat, result. repeat split; try assumption.
    intros ->. rewrite (run_converted _ _ _ _ Hfound Hformat Hrun) in Hin.
    unfold write_buffer in Hin. cbn [String.eqb fst app] in Hin.
    destruct Hin as [<-|[<-|Hin]]; try discriminate He.
    rewrite app_nil_r in Hin.
    assert (In e (filter mutates_buffer
                    match snd (file_handling pandoc_format_file temp_name
                                 (output_format
                                    (pandoc_arguments transformation))
                                 (pdf_handling
                                    (pandoc_arguments transformation)))
                    with
                    | Some path =>
                        open_viewer platform os_name viewer_raises path
                    | None => []
                    end)) as C by (apply filter_In; now split).
    destruct (snd _); [rewrite open_viewer_no_buffer in C|]; destruct C.
  - exfalso.
    rewrite (run_diagnosed transformation pandoc iformat result error
               Hfound Hformat Hrun Herror e Hin) in He.
    discriminate He.
Qed.

(** X22.  For an output format that is written to a file, the path on
    which the viewer is opened is the one the arguments name with [-o] or
    [--output], the arguments being handed on as they are, or else the
    temporary name with the format as suffix, in which case [-o] and that
    path are appended to the arguments. *)
Theorem file_output (transformation : Transformation)
    (pandoc iformat result f : string) :
  fst (Pandoc.find_binary path_exists path_join env_PATH "pandoc"
         pandoc_path) = Some pandoc ->
  input_format score_selector transformation = Some iformat ->
  output_format (pandoc_arguments transformation) = Some f ->
  mem f pandoc_format_file = true ->
  communicate
    ([pandoc; "-f"; iformat]
     ++ final_args pandoc_format_file temp_name transformation)
    (encode contents) = (result, EmptyString) ->
  exists path,
    Pandoc.run score_selector contents pandoc_path pandoc_format_file
      path_exists path_join env_PATH temp_name platform os_name
      viewer_raises communicate encode decode strip transformation
    = ([Popen ([pandoc; "-f"; iformat]
               ++ final_args pandoc_format_file temp_name transformation)
              (encode contents);
        print (join " " ([pandoc; "-f"; iformat]
                         ++ final_args pandoc_format_file temp_name
                              transformation))]
       ++ open_viewer platform os_name viewer_raises path
       ++ fst (write_buffer decode transformation result),
       snd (write_buffer decode transformation result))
    /\ ((Args.get (Some ["o"]) (Some ["output"])
           (pdf_handling (pandoc_arguments transformation)) = Some path
         /\ final_args pandoc_format_file temp_name transformation
            = pdf_handling (pandoc_arguments transformation))
        \/ (Args.get (Some ["o"]) (Some ["output"])
              (pdf_handling (pandoc_arguments transformation)) = None
            /\ path = (temp_name ++ "." ++ f)%string
            /\ final_args pandoc_format_file temp_name transformation
               = pdf_handling (pandoc_arguments transformation)
                 ++ ["-o"; path])).
Proof.
  intros Hfound Hformat Hout Hfile Hrun.
  rewrite (run_converted _ _ _ _ Hfound Hformat Hrun).
  unfold final_args, file_handling. rewrite Hout, Hfile.
  destruct (Args.get (Some ["o"]) (Some ["output"])
              (pdf_handling (pandoc_arguments transformation)))
    as [path|] eqn:E; cbn [fst snd].
  - exists path. split; [reflexivity|]. left. now split.
  - exists (temp_name ++ "." ++ f)%string. split; [reflexivity|].
    right. now repeat split.
Qed.

(** X23.  For an output format that is not written to a file, and when no
    output format is given, the arguments are handed on as they stand after
    the PDF handling, and the run opens no viewer and shows no dialog. *)
Theorem stream_output (transformation : Transformation) :
  (forall f, output_format (pandoc_arguments transformation) = Some f ->
             mem f pandoc_format_file = false) ->
  final_args pandoc_format_file temp_name transformation
  = pdf_handling (pandoc_arguments transformation)
  /\ forall e,
       In e (fst (Pandoc.run score_selector contents pandoc_path
                    pandoc_format_file path_exists path_join env_PATH
                    temp_name platform os_name viewer_raises communicate
                    encode decode strip transformation)) ->
       match e with
       | call _ | startfile _ | message_dialog _ => False
       | _ => True
       end.
Proof.
  intros Hstream.
  assert (file_handling pandoc_format_file temp_name
            (output_format (pandoc_arguments transformation))
            (pdf_handling (pandoc_arguments transformation))
          = (pdf_handling (pandoc_arguments transformation), None)) as Hfile.
  { unfold file_handling.
    destruct (output_format (pandoc_arguments transformation)) as [f|];
      [|reflexivity].
    now rewrite (Hstream f eq_refl). }
  split; [unfold final_args; now rewrite Hfile|].
  intros e. unfold Pandoc.run.
  destruct (Pandoc.find_binary path_exists path_join env_PATH "pandoc"
              pandoc_path) as [[pandoc|] shown] eqn:Hfound.
  2:{ cbn [fst]. revert Hfound. unfold Pandoc.find_binary.
      destruct pandoc_path as [d|].
      - destruct (path_exists d); [discriminate|].
        intros [= <-] [<-|[]]. exact I.
      - destruct (find _ env_PATH); [discriminate|].
        intros [= <-] [<-|[]]. exact I. }
  assert (shown = []) as ->.
  { pose proof (find_binary_found path_exists path_join env_PATH "pandoc"
                  pandoc_path pandoc) as F.
    rewrite Hfound in F. specialize (F eq_refl). now inversion F. }
  destruct (input_format score_selector transformation) as [iformat|];
    [|intros []].
  rewrite Hfile. destruct (communicate _ _) as [result error].
  destruct (negb (String.eqb error "")).
  - destruct (conversion_error _ _ _ _); cbn [fst app].
    + intros [<-|[<-|[]]]; exact I.
    + intros [<-|[]]; exact I.
  - destruct (write_buffer decode transformation result)
      as [written ending] eqn:W.
    cbn [fst app]. intros [<-|[<-|Hin]]; try exact I.
    pose proof (write_buffer_events decode transformation result e) as Q.
    rewrite W in Q. specialize (Q Hin). now destruct e.
Qed.

(** X24.  When the output format is [pdf] and [pdf] is written to a file,
    the format flags are taken out and, unless the arguments left name an
    output path, [-o] and the temporary name with the suffix [.pdf] are
    appended: the converter is told the format by the file name only. *)
Theorem pdf_by_suffix (transformation : Transformation) :
  output_format (pandoc_arguments transformation) = Some "pdf" ->
  mem "pdf" pandoc_format_file = true ->
  Args.get (Some ["o"]) (Some ["output"])
    (Args.remove (Some ["t"; "w"]) (Some ["to"; "write"]) (Some ["pdf"])
       (pandoc_arguments transformation)) = None ->
  final_args pandoc_format_file temp_name transformation
  = Args.remove (Some ["t"; "w"]) (Some ["to"; "write"]) (Some ["pdf"])
      (pandoc_arguments transformation)
    ++ ["-o"; (temp_name ++ ".pdf")%string].
Proof.
  intros Hout Hfile Hpath.
  unfold final_args, file_handling, pdf_handling.
  rewrite Hout, Hfile. cbn [String.eqb Ascii.eqb Bool.eqb].
  now rewrite Hpath.
Qed.

(** X25.  With scores that are never negative, a transformation that the
    ranker retains resolves an input format in the executor, and the format
    is bound to a selector that attains the best score the ranker found. *)
Theorem ranked_resolves (transformation : Transformation) (best : Z) :
  (forall selector, 0 <= score_selector selector)%Z ->
  Prompt.best_score score_selector transformation = Some best ->
  exists selector iformat,
    input_format score_selector transformation = Some iformat
    /\ In (selector, iformat) (scope transformation)
    /\ score_selector selector = best.
Proof.
  intros Hpos Hbest.
  apply PromptMore.best_score_spec in Hbest as [Hin Hall].
  rewrite Forall_forall in Hall.
  pose proof Hin as Hin0.
  apply PromptMore.nonzero_scores_In in Hin0
    as [Hne (sel0 & fmt0 & Hsel0 & Hscore0)].
  assert (0 < best)%Z as Hbest by (specialize (Hpos sel0); lia).
  unfold input_format.
  destruct (iformat_loop_spec score_selector (scope transformation) 0%Z None)
    as [[_ Hzero]|(pre & sel & f & post & Hscope & E & Hs & Hpre & Hpost)].
  - rewrite Forall_forall in Hzero. specialize (Hzero _ Hsel0).
    simpl in Hzero. lia.
  - exists sel, f. split; [assumption|].
    split; [rewrite Hscope; apply in_elt|].
    apply Z.le_antisymm.
    + apply Hall. apply PromptMore.nonzero_scores_In. split; [lia|].
      exists sel, f. split; [rewrite Hscope; apply in_elt|reflexivity].
    + rewrite Hscope in Hsel0. rewrite Forall_forall in Hpre, Hpost.
      apply in_app_or in Hsel0 as [H|[H|H]].
      * specialize (Hpre _ H). simpl in Hpre. lia.
      * injection H as <- _. lia.
      * specialize (Hpost _ H). simpl in Hpost. lia.
Qed.

End Host.

Lemma binary_missing_witness :
  fst (Pandoc.find_binary (fun _ => false)
         (fun d n => (d ++ "/" ++ n)%string) ["/usr/bin"] "pandoc" None) = None
  /\ exists msg,
       Pandoc.run Examples.markdown_view "# Title" None ["docx"] (fun _ => false)
       (fun d n => (d ++ "/" ++ n)%string) ["/usr/bin"] "/tmp/tmp0" "linux"
       "posix" false Examples.html_converter (fun s => s) Examples.decode_utf8
       (fun s => s)
         Examples.markdown_html
       = ([error_message msg], Returned).
Proof.
  split; [reflexivity|].
  exact (binary_missing Examples.markdown_view "# Title" None ["docx"] (fun _ => false)
       (fun d n => (d ++ "/" ++ n)%string) ["/usr/bin"] "/tmp/tmp0" "linux"
       "posix" false Examples.html_converter (fun s => s) Examples.decode_utf8
       (fun s => s)
           Examples.markdown_html eq_refl).
Defined.

Lemma find_binary_sound_witness :
  Pandoc.find_binary (fun p => String.eqb p "/usr/bin/pandoc")
    (fun d n => (d ++ "/" ++ n)%string) ["/usr/local/bin"; "/usr/bin"]
    "pandoc" None
  = (Some "/usr/bin/pandoc", [])
  /\ String.eqb "/usr/bin/pandoc" "/usr/bin/pandoc" = true.
Proof.
  split; [reflexivity|].
  exact (proj1 (proj2
           (find_binary_sound (fun p => String.eqb p "/usr/bin/pandoc")
              (fun d n => (d ++ "/" ++ n)%string)
              ["/usr/local/bin"; "/usr/bin"] "pandoc" None
              "/usr/bin/pandoc" [] eq_refl))).
Defined.

Lemma buffer_written_witness :
  fst (Pandoc.find_binary (fun _ => true)
         (fun d n => (d ++ "/" ++ n)%string) ["/usr/bin"] "pandoc" None)
  = Some "/usr/bin/pandoc"
  /\ input_format Examples.markdown_view Examples.markdown_html
     = Some "markdown"
  /\ "<h1>Title</h1>" <> EmptyString
  /\ (filter mutates_buffer
        (fst (Pandoc.run Examples.markdown_view "# Title" None ["docx"] (fun _ => true)
       (fun d n => (d ++ "/" ++ n)%string) ["/usr/bin"] "/tmp/tmp0" "linux"
       "posix" false Examples.html_converter (fun s => s) Examples.decode_utf8
       (fun s => s)
                Examples.markdown_html)),
      snd (Pandoc.run Examples.markdown_view "# Title" None ["docx"] (fun _ => true)
       (fun d n => (d ++ "/" ++ n)%string) ["/usr/bin"] "/tmp/tmp0" "linux"
       "posix" false Examples.html_converter (fun s => s) Examples.decode_utf8
       (fun s => s)
             Examples.markdown_html))
     = ([new_file; replace Fresh "<h1>Title</h1>";
         set_syntax_file Fresh "Packages/HTML/HTML.tmLanguage"],
        Returned).
Proof.
  split; [reflexivity|]. split; [reflexivity|]. split; [discriminate|].
  refine (buffer_written Examples.markdown_view "# Title" None ["docx"] (fun _ => true)
       (fun d n => (d ++ "/" ++ n)%string) ["/usr/bin"] "/tmp/tmp0" "linux"
       "posix" false Examples.html_converter (fun s => s) Examples.decode_utf8
       (fun s => s)
            Examples.markdown_html "/usr/bin/pandoc" "markdown"
            "<h1>Title</h1>" eq_refl eq_refl eq_refl _).
  discriminate.
Defined.

Lemma buffer_change_needs_output_witness :
  In new_file
     (fst (Pandoc.run Examples.markdown_view "# Title" None ["docx"] (fun _ => true)
       (fun d n => (d ++ "/" ++ n)%string) ["/usr/bin"] "/tmp/tmp0" "linux"
       "posix" false Examples.html_converter (fun s => s) Examples.decode_utf8
       (fun s => s)
             Examples.markdown_html))
  /\ mutates_buffer new_file = true
  /\ exists pandoc iformat result,
       fst (Pandoc.find_binary (fun _ => true)
         (fun d n => (d ++ "/" ++ n)%string) ["/usr/bin"] "pandoc" None) = Some pandoc
       /\ input_format Examples.markdown_view Examples.markdown_html
          = Some iformat
       /\ Examples.html_converter
            ([pandoc; "-f"; iformat]
             ++ final_args ["docx"] "/tmp/tmp0" Examples.markdown_html)
            "# Title" = (result, EmptyString)
       /\ result <> EmptyString.
Proof.
  assert (In new_file
            (fst (Pandoc.run Examples.markdown_view "# Title" None ["docx"] (fun _ => true)
       (fun d n => (d ++ "/" ++ n)%string) ["/usr/bin"] "/tmp/tmp0" "linux"
       "posix" false Examples.html_converter (fun s => s) Examples.decode_utf8
       (fun s => s)
                    Examples.markdown_html))) as Hin
    by (simpl; tauto).
  split; [exact Hin|]. split; [reflexivity|].
  exact (buffer_change_needs_output Examples.markdown_view "# Title" None ["docx"] (fun _ => true)
       (fun d n => (d ++ "/" ++ n)%string) ["/usr/bin"] "/tmp/tmp0" "linux"
       "posix" false Examples.html_converter (fun s => s) Examples.decode_utf8
       (fun s => s)
           Examples.markdown_html new_file Hin eq_refl).
Defined.

Lemma file_output_witness :
  output_format (pandoc_arguments Examples.markdown_docx) = Some "docx"
  /\ mem "docx" ["docx"] = true
  /\ exists path,
       Pandoc.run Examples.markdown_view "# Title" None ["docx"] (fun _ => true)
       (fun d n => (d ++ "/" ++ n)%string) ["/usr/bin"] "/tmp/tmp0" "linux"
       "posix" false Examples.silent_converter (fun s => s) Examples.decode_utf8
       (fun s => s)
         Examples.markdown_docx
       = ([Popen (["/usr/bin/pandoc"; "-f"; "markdown"]
                  ++ final_args ["docx"] "/tmp/tmp0" Examples.markdown_docx)
                 "# Title";
           print (join " " (["/usr/bin/pandoc"; "-f"; "markdown"]
                            ++ final_args ["docx"] "/tmp/tmp0"
                                 Examples.markdown_docx))]
          ++ open_viewer "linux" "posix" false path
          ++ fst (write_buffer Examples.decode_utf8 Examples.markdown_docx
                    EmptyString),
          snd (write_buffer Examples.decode_utf8 Examples.markdown_docx
                 EmptyString))
       /\ ((Args.get (Some ["o"]) (Some ["output"])
              (pdf_handling (pandoc_arguments Examples.markdown_docx))
            = Some path
            /\ final_args ["docx"] "/tmp/tmp0" Examples.markdown_docx
               = pdf_handling (pandoc_arguments Examples.markdown_docx))
           \/ (Args.get (Some ["o"]) (Some ["output"])
                 (pdf_handling (pandoc_arguments Examples.markdown_docx))
               = None
               /\ path = ("/tmp/tmp0" ++ "." ++ "docx")%string
               /\ final_args ["docx"] "/tmp/tmp0" Examples.markdown_docx
                  = pdf_handling (pandoc_arguments Examples.markdown_docx)
                    ++ ["-o"; path])).
Proof.
  split; [reflexivity|]. split; [reflexivity|].
  exact (file_output Examples.markdown_view "# Title" None ["docx"] (fun _ => true)
       (fun d n => (d ++ "/" ++ n)%string) ["/usr/bin"] "/tmp/tmp0" "linux"
       "posix" false Examples.silent_converter (fun s => s) Examples.decode_utf8
       (fun s => s)
           Examples.markdown_docx "/usr/bin/pandoc" "markdown" EmptyString
           "docx" eq_refl eq_refl eq_refl eq_refl eq_refl).
Defined.

Lemma stream_output_witness :
  (forall f, output_format (pandoc_arguments Examples.markdown_html) = Some f
             -> mem f ["docx"] = false)
  /\ final_args ["docx"] "/tmp/tmp0" Examples.markdown_html
     = pdf_handling (pandoc_arguments Examples.markdown_html).
Proof.
  assert (forall f,
            output_format (pandoc_arguments Examples.markdown_html) = Some f
            -> mem f ["docx"] = false) as H
    by (intros f [= <-]; reflexivity).
  split; [exact H|].
  exact (proj1 (stream_output Examples.markdown_view "# Title" None ["docx"] (fun _ => true)
       (fun d n => (d ++ "/" ++ n)%string) ["/usr/bin"] "/tmp/tmp0" "linux"
       "posix" false Examples.html_converter (fun s => s) Examples.decode_utf8
       (fun s => s)
                  Examples.markdown_html H)).
Defined.

Lemma pdf_by_suffix_witness :
  output_format (pandoc_arguments Examples.markdown_pdf) = Some "pdf"
  /\ mem "pdf" ["docx"; "pdf"] = true
  /\ final_args ["docx"; "pdf"] "/tmp/tmp0" Examples.markdown_pdf
     = Args.remove (Some ["t"; "w"]) (Some ["to"; "write"]) (Some ["pdf"])
         (pandoc_arguments Examples.markdown_pdf)
       ++ ["-o"; ("/tmp/tmp0" ++ ".pdf")%string].
Proof.
  split; [reflexivity|]. split; [reflexivity|].
  exact (pdf_by_suffix ["docx"; "pdf"] "/tmp/tmp0" Examples.markdown_pdf
           eq_refl eq_refl eq_refl).
Defined.

Lemma ranked_resolves_witness :
  (forall selector, 0 <= Examples.markdown_view selector)%Z
  /\ Prompt.best_score Examples.markdown_view Examples.markdown_html
     = Some 24%Z
  /\ exists selector iformat,
       input_format Examples.markdown_view Examples.markdown_html
       = Some iformat
       /\ In (selector, iformat) (scope Examples.markdown_html)
       /\ Examples.markdown_view selector = 24%Z.
Proof.
  assert (forall selector, 0 <= Examples.markdown_view selector)%Z as Hpos.
  { intros selector. unfold Examples.markdown_view.
    destruct (String.eqb selector "text.html.markdown"); [lia|].
    destruct (String.eqb selector "text.html"); lia. }
  split; [exact Hpos|]. split; [reflexivity|].
  exact (ranked_resolves Examples.markdown_view Examples.markdown_html 24%Z
           Hpos eq_refl).
Defined.

End PandocMore.

(** ** The prompt *)

Module PromptRunFacts.
Import Settings Prompt PromptFacts PromptRun.

(** X26.  When the command shows the quick panel with a list of names,
    each index of that list, handed back to [transform], runs the
    transformation configured under the name shown at that index. *)
Theorem panel_choice_runs (v : view) (options names : list string)
    (items : list (string * Transformation)) (i : Z) :
  NoDup (map fst items) ->
  fst (run (Some v) options items) = [show_quick_panel (Some names)] ->
  (0 <= i < Z.of_nat (List.length names))%Z ->
  exists name settings,
    nth_error names (Z.to_nat i) = Some name
    /\ In (name, settings) items
    /\ transform (snd (run (Some v) options items)) items i
       = RunCommand settings.
Proof.
  intros Hnd Hshown Hi. unfold run in *.
  destruct (transformations (score_selector v) (syntax v) items)
    as [msg|names'] eqn:E; [discriminate|].
  injection Hshown as <-. cbn [snd].
  destruct (nth_error names' (Z.to_nat i)) as [name|] eqn:En.
  2:{ apply nth_error_None in En. lia. }
  assert (In name (map fst items)) as Hname.
  { apply nth_error_In in En.
    apply (PromptMore.transformations_names_In (score_selector v) (syntax v)
             items names' name Hnd E) in En as (settings & _ & _ & Hin & _).
    now apply (in_map fst) in Hin. }
  destruct (PromptMore.dict_get_In name items Hname) as [settings [Hget Hin]].
  exists name, settings. split; [reflexivity|]. split; [assumption|].
  unfold transform, list_index.
  destruct (Z.eqb_spec i (-1)); [lia|].
  destruct (Z.leb_spec 0 i); [|lia].
  now rewrite En, Hget.
Qed.

Lemma panel_choice_runs_witness :
  NoDup (map fst Examples.configured)
  /\ fst (run (Some {| score_selector := Examples.markdown_view;
                       syntax := "Packages/Markdown/Markdown.tmLanguage" |})
            [] Examples.configured)
     = [show_quick_panel
          (Some ["Markdown to PDF"; "Markdown to HTML"; "HTML to Markdown"])]
  /\ (0 <= 0 < Z.of_nat (List.length
                           ["Markdown to PDF"; "Markdown to HTML";
                            "HTML to Markdown"]))%Z
  /\ exists name settings,
       nth_error ["Markdown to PDF"; "Markdown to HTML"; "HTML to Markdown"]
         (Z.to_nat 0) = Some name
       /\ In (name, settings) Examples.configured
       /\ transform
            (snd (run (Some {| score_selector := Examples.markdown_view;
                               syntax :=
                                 "Packages/Markdown/Markdown.tmLanguage" |})
                    [] Examples.configured))
            Examples.configured 0
          = RunCommand settings.
Proof.
  assert (NoDup (map fst Examples.configured)) as Hnd.
  { repeat constructor; simpl; intuition discriminate. }
  assert (0 <= 0 < Z.of_nat (List.length
                               ["Markdown to PDF"; "Markdown to HTML";
                                "HTML to Markdown"]))%Z as Hi
    by (simpl; lia).
  split; [exact Hnd|]. split; [reflexivity|]. split; [exact Hi|].
  exact (panel_choice_runs
           {| score_selector := Examples.markdown_view;
              syntax := "Packages/Markdown/Markdown.tmLanguage" |}
           [] _ Examples.configured 0 Hnd eq_refl Hi).
Defined.

(** X27.  When every selector of every transformation scores zero for the
    active view, the command shows the error message and then still opens
    the quick panel, with [None] for its items; [self.options] keeps the
    list of the run before. *)
Theorem panel_without_match (v : view) (options : list string)
    (items : list (string * Transformation)) :
  NoDup (map fst items) ->
  (forall label settings selector iformat,
     In (label, settings) items ->
     In (selector, iformat) (scope settings) ->
     score_selector v selector = 0%Z) ->
  run (Some v) options items
  = ([error_message
        ("No transformations configured for the syntax " ++ syntax v);
      show_quick_panel None],
     options).
Proof.
  intros Hnd Hzero. unfold run, transformations.
  rewrite rank_items_spec by (assumption || reflexivity).
  apply (ranked_spec_empty (score_selector v)) in Hzero.
  now rewrite Hzero.
Qed.

Lemma panel_without_match_witness :
  NoDup (map fst Examples.configured)
  /\ run (Some {| score_selector := fun _ => 0%Z; syntax := "Plain" |})
         ["Markdown to HTML"] Examples.configured
     = ([error_message "No transformations configured for the syntax Plain";
         show_quick_panel None],
        ["Markdown to HTML"]).
Proof.
  assert (NoDup (map fst Examples.configured)) as Hnd.
  { repeat constructor; simpl; intuition discriminate. }
  split; [exact Hnd|].
  exact (panel_without_match
           {| score_selector := fun _ => 0%Z; syntax := "Plain" |}
           ["Markdown to HTML"] Examples.configured Hnd
           (fun _ _ _ _ _ _ => eq_refl)).
Defined.

End PromptRunFacts.
